(** * The economic-activity dashboard (app.py): loader, filter, aggregator, exporter

    A shallow embedding of [src/app.py].

    - A pandas frame is the list of its rows, in index order.  The frame that
      [pd.read_csv] returns has the five source columns ([SourceRow]); after
      [load_data] every row also carries the derived column ([Record_]).
    - A number is an exact rational ([Q]): the rounding of binary64 is
      abstracted, the control flow (the guard on the denominator, the
      exception of Python's true division) is kept.  An undefined float
      (pandas' NaN, the mean of no values) is explicit in [pyfloat].  Whether
      pandas holds a numeric column as [int64] or as [float64] only shows in
      the text of the export; it is given with the run ([column_dtype]).
    - [st.cache_data] keeps the result of [load_data] between runs of the
      script; one run is modelled, in which the table is read once.
    - Every cell of the five source columns holds a value: a table with a
      missing column or a missing cell is outside [SourceRow].
    - Streamlit is an external collaborator: a run is the sequence of calls it
      makes on the [st] module ([st_call]), ended by a normal return or by an
      uncaught exception ([Run]).  What the user picked in the two sidebar
      widgets is an input of the run ([Selection]); a widget is taken to
      return that pick, whatever options and defaults it is given.
    - The text Python writes for a number, and the row writer of the [csv]
      module, are the runtime's: the interface [PyText], with the laws
      [PyTextLaws] that the export relies on. *)

From Stdlib Require Import QArith Qround Lqa ZArith String Ascii List.
From stdpp Require Import base option list strings gmap sorting pretty.

(** ** Numbers *)

(** A float as pandas aggregates give it back: a value, or NaN. *)
Inductive pyfloat :=
| Num (q : Q)
| NaN.

(** Python's [x > y] on numbers. *)
Definition Qgtb (x y : Q) : bool := negb (Qle_bool x y).

(** ** Exceptions and runs *)

Inductive exn :=
| FileNotFoundError
| PermissionError
| IsADirectoryError
| ZeroDivisionError.

#[global] Instance exn_eq_dec : EqDecision exn.
Proof. solve_decision. Defined.

Inductive outcome (A : Type) :=
| Return (a : A)
| Raise (e : exn).
Arguments Return {A} a.
Arguments Raise {A} e.

#[global] Instance outcome_ret : MRet outcome := fun _ a => Return a.
#[global] Instance outcome_bind : MBind outcome := fun _ _ f m =>
  match m with
  | Return a => f a
  | Raise e => Raise e
  end.

(** Python's [x / y]: raises on a zero divisor. *)
Definition py_truediv (x y : Q) : outcome Q :=
  if Qeq_bool y 0 then Raise ZeroDivisionError else Return (x / y)%Q.

(** ** Data model *)

(** The label of the nation-wide total row in the region column. *)
Definition aggregate_marker : string := "계".

(** The column labels of the table. *)
Definition col_year : string := "년도".
Definition col_region : string := "지역".
Definition col_active : string := "경제활동인구 (천명)".
Definition col_employed : string := "취업자 (천명)".
Definition col_unemployed : string := "실업자 (천명)".
Definition col_rate : string := "실업률 (%)".

(** One row of the table as [pd.read_csv] returns it. *)
Record SourceRow := mkSourceRow {
  src_year : Z;
  src_region : string;
  src_active : Q;
  src_employed : Q;
  src_unemployed : Q
}.

(** One row of the loaded table: the source columns and ['실업률 (%)']. *)
Record Record_ := mkRecord {
  year : Z;
  region : string;
  economically_active : Q;
  employed : Q;
  unemployed : Q;
  unemployment_rate : Q
}.

Definition DataFrame := list Record_.

Definition source_of (r : Record_) : SourceRow :=
  mkSourceRow (year r) (region r) (economically_active r) (employed r) (unemployed r).

(** ** The file system seen by [pd.read_csv] *)

Inductive file :=
| Csv (rows : list SourceRow)   (* a readable table with the five columns *)
| Unreadable                    (* exists, but opening it is denied *)
| Directory.                    (* the path names a directory *)

Definition filesystem := gmap string file.

Definition pd_read_csv (fs : filesystem) (path : string) : outcome (list SourceRow) :=
  match fs !! path with
  | None => Raise FileNotFoundError
  | Some (Csv rows) => Return rows
  | Some Unreadable => Raise PermissionError
  | Some Directory => Raise IsADirectoryError
  end.

(** ** Streamlit calls *)

(** [filtered_df.style.format({...})]: the frame and the display format of
    the columns named. *)
Record Styler := mkStyler {
  styler_data : DataFrame;
  styler_formats : list (string * string)
}.

Inductive st_call :=
| st_set_page_config (page_title page_icon layout initial_sidebar_state : string)
| st_title (body : string)
| st_markdown (body : string)
| st_header (body : string)
| st_subheader (body : string)
| st_multiselect_years (label : string) (options default : list Z)
| st_multiselect_regions (label : string) (options default : list string)
| st_warning (body : string)
| st_error (body : string)
| st_info (body : string)
| st_columns (spec : list Q)
| st_metric (label value : string)
| st_line_chart (data : list (Z * list (string * pyfloat)))
| st_bar_chart (data : list (string * pyfloat))
| st_expander (label : string)
| st_dataframe (data : Styler)
| st_download_button (label : string) (data : list ascii) (file_name mime : string)
| st_in (container : string) (call : st_call).   (* a call on st.sidebar, on a column, in an expander *)

(** A run: the calls made so far, and how it ended. *)
Definition Run (A : Type) : Type := list st_call * outcome A.

#[global] Instance Run_ret : MRet Run := fun _ a => ([], Return a).
#[global] Instance Run_bind : MBind Run := fun _ _ f m =>
  match m with
  | (calls, Return a) => let '(calls', r) := f a in (calls ++ calls', r)
  | (calls, Raise e) => (calls, Raise e)
  end.

Definition call (c : st_call) : Run unit := ([c], Return tt).
Definition lift {A} (m : outcome A) : Run A := ([], m).

(** [try: body except e: handler]. *)
Definition try_except {A} (body : Run A) (e : exn) (handler : Run A) : Run A :=
  match body with
  | (calls, Raise e') =>
      if decide (e' = e) then let '(calls', r) := handler in (calls ++ calls', r)
      else body
  | _ => body
  end.

Definition calls_of {A} (m : Run A) : list st_call := fst m.
Definition outcome_of {A} (m : Run A) : outcome A := snd m.

(** ** 2. Loading *)

(** The lambda of [df.apply(..., axis=1)]. *)
Definition rate_lambda (row : SourceRow) : outcome Q :=
  if Qgtb (src_active row) 0
  then v ← py_truediv (src_unemployed row) (src_active row); mret (v * 100)%Q
  else mret 0%Q.

(** [df.apply(f, axis=1)]: [f] on every row in order; the first exception
    ends it. *)
Fixpoint apply_axis1 {A B} (f : A -> outcome B) (df : list A) : outcome (list B) :=
  match df with
  | [] => mret []
  | row :: df' => v ← f row; vs ← apply_axis1 f df'; mret (v :: vs)
  end.

Definition with_rate (row : SourceRow) (rate : Q) : Record_ :=
  mkRecord (src_year row) (src_region row) (src_active row) (src_employed row)
           (src_unemployed row) rate.

(** [df['실업률 (%)'] = column]. *)
Definition assign_rate (df : list SourceRow) (column : list Q) : DataFrame :=
  zip_with with_rate df column.

(** [df[df['지역'] != '계']]. *)
Definition drop_aggregate (df : list SourceRow) : list SourceRow :=
  filter (fun row => src_region row <> aggregate_marker) df.

Definition not_found_message (path : string) : string :=
  "'" +:+ path +:+ "' 파일을 찾을 수 없습니다. 스크립트와 동일한 디렉토리에 파일이 있는지 확인해주세요.".

Definition load_data (fs : filesystem) (path : string) : Run (option DataFrame) :=
  try_except
    (df ← lift (pd_read_csv fs path);
     let df := drop_aggregate df in
     column ← lift (apply_axis1 rate_lambda df);
     mret (Some (assign_rate df column)))
    FileNotFoundError
    (_ ← call (st_error (not_found_message path)); mret None).

(** ** The runtime's text *)

(** The type pandas gives a numeric column: [pd.read_csv] types a column
    written with integer literals only [int64] and any other numeric column
    [float64]; the column of rates is [float64] unless every rate is the
    integer [0] of the guard. *)
Inductive dtype :=
| int64
| float64.

(** What the Python runtime writes: the default text of a float cell
    ([to_csv] with [float_format=None]), [format(value, spec)] as an f-string
    or [str.format] field does it, and one row of [csv.writer]: the fields,
    each as [csv_field] writes it (quoted where needed), separated by commas
    and ended by the line terminator [os.linesep].  With it comes the type
    that the numeric column of a given label has in the table of the run. *)
Class PyText := {
  repr_float : Q -> string;
  py_format : string -> pyfloat -> string;
  csv_writerow : list string -> string;
  csv_field : string -> string;
  os_linesep : string;
  column_dtype : string -> dtype
}.

(** ** 3. The sidebar *)

(** What the user has picked in the two multiselect widgets. *)
Record Selection := mkSelection {
  selected_years : list Z;
  selected_regions : list string
}.

(** [Series.unique()]: the values in order of first appearance. *)
Fixpoint unique {A} `{EqDecision A} (column : list A) : list A :=
  match column with
  | [] => []
  | x :: column' => x :: filter (fun y => y <> x) (unique column')
  end.

Definition str_le (a b : string) : Prop := String.leb a b = true.

#[global] Instance str_le_dec a b : Decision (str_le a b).
Proof. unfold str_le. apply _. Defined.

Definition sorted_years (column : list Z) : list Z := merge_sort Z.le column.
Definition sorted_years_reverse (column : list Z) : list Z :=
  merge_sort (flip Z.le) column.
Definition sorted_regions (column : list string) : list string :=
  merge_sort str_le column.

Definition default_regions : list string :=
  ["서울특별시"; "경기도"; "부산광역시"; "인천광역시"].

Definition setup_sidebar (ui : Selection) (df : DataFrame) : Run (list Z * list string) :=
  _ ← call (st_in "sidebar" (st_header "🔎 데이터 필터"));
  let year_options := sorted_years_reverse (unique (year <$> df)) in
  _ ← call (st_in "sidebar"
        (st_multiselect_years "년도 선택:" year_options (take 1 year_options)));
  _ ← call (st_in "sidebar"
        (st_multiselect_regions "지역 선택:" (sorted_regions (unique (region <$> df)))
           default_regions));
  mret (selected_years ui, selected_regions ui).

(** ** Filtering *)

(** [column.isin(values)]. *)
Definition isin {A} `{EqDecision A} (column values : list A) : list bool :=
  (fun x => bool_decide (x ∈ values)) <$> column.

(** [mask1 & mask2]. *)
Definition mask_and (mask1 mask2 : list bool) : list bool := zip_with andb mask1 mask2.

(** [df[mask]]. *)
Fixpoint boolean_index {A} (df : list A) (mask : list bool) : list A :=
  match df, mask with
  | row :: df', b :: mask' =>
      if b then row :: boolean_index df' mask' else boolean_index df' mask'
  | _, _ => []
  end.

(** Line 60: [df[df['년도'].isin(selected_years) & df['지역'].isin(selected_regions)]]. *)
Definition filtered_df (df : DataFrame) (years : list Z) (regions : list string) : DataFrame :=
  boolean_index df (mask_and (isin (year <$> df) years) (isin (region <$> df) regions)).

(** ** Aggregation *)

(** [Series.sum()]. *)
Definition Series_sum (column : list Q) : Q := fold_left Qplus column 0%Q.

(** [Series.mean()]: NaN on no values. *)
Definition Series_mean (column : list Q) : pyfloat :=
  match column with
  | [] => NaN
  | _ => Num (Series_sum column / inject_Z (Z.of_nat (length column)))
  end.

Definition total_employed (subset : DataFrame) : Q := Series_sum (employed <$> subset).
Definition total_unemployed (subset : DataFrame) : Q := Series_sum (unemployed <$> subset).
Definition avg_unemployment_rate (subset : DataFrame) : pyfloat :=
  Series_mean (unemployment_rate <$> subset).

(** The sum of a group of a pivot; a pair without rows is a NaN cell. *)
Definition group_sum (column : list Q) : pyfloat :=
  match column with
  | [] => NaN
  | _ => Num (Series_sum column)
  end.

(** [pivot_table(index='년도', columns='지역', values='취업자 (천명)', aggfunc='sum')]. *)
Definition line_chart_df (subset : DataFrame) : list (Z * list (string * pyfloat)) :=
  let regions := sorted_regions (unique (region <$> subset)) in
  (fun y =>
     (y, (fun g =>
            (g, group_sum
                  (employed <$> filter (fun r => year r = y /\ region r = g) subset)))
         <$> regions))
  <$> sorted_years (unique (year <$> subset)).

(** [pivot_table(index='지역', values='실업률 (%)', aggfunc='mean')]. *)
Definition bar_chart_df (subset : DataFrame) : list (string * pyfloat) :=
  (fun g => (g, Series_mean (unemployment_rate <$> filter (fun r => region r = g) subset)))
  <$> sorted_regions (unique (region <$> subset)).

(** [pd.Series([total_employed, total_unemployed], index=['취업자', '실업자'])]. *)
Definition ratio_data (subset : DataFrame) : list (string * pyfloat) :=
  [("취업자", Num (total_employed subset)); ("실업자", Num (total_unemployed subset))].

(** ** Export *)

Inductive cell :=
| CInt (z : Z)
| CStr (s : string)
| CFloat (q : Q).

Record Frame := mkFrame {
  frame_columns : list string;
  frame_rows : list (list cell)
}.

(** The byte-order marker that the codec [utf-8-sig] writes first. *)
Definition BOM_UTF8 : list ascii :=
  [ascii_of_nat 239; ascii_of_nat 187; ascii_of_nat 191].

(** [s.encode('utf-8-sig')]; a [string] is its UTF-8 bytes already. *)
Definition encode_utf8_sig (s : string) : list ascii :=
  BOM_UTF8 ++ list_ascii_of_string s.

Fixpoint join (sep : string) (parts : list string) : string :=
  match parts with
  | [] => EmptyString
  | [s] => s
  | s :: parts' => s +:+ sep +:+ join sep parts'
  end.

Section Dashboard.
Context `{PyText}.

(** A cell of a numeric column: an integer in a column that pandas holds as
    [int64], a float otherwise. *)
Definition numeric_cell (column : string) (q : Q) : cell :=
  match column_dtype column with
  | int64 => CInt (Qfloor q)
  | float64 => CFloat q
  end.

(** The numeric columns of a row, by label. *)
Definition numeric_columns (r : Record_) : list (string * Q) :=
  [(col_active, economically_active r); (col_employed, employed r);
   (col_unemployed, unemployed r); (col_rate, unemployment_rate r)].

(** A row fits the types of the columns: a column that pandas holds as
    [int64] has a whole number in it. *)
Definition well_typed (r : Record_) : Prop :=
  forall column q, (column, q) ∈ numeric_columns r ->
    column_dtype column = int64 -> (inject_Z (Qfloor q) == q)%Q.

Definition cells_of (r : Record_) : list cell :=
  [CInt (year r); CStr (region r);
   numeric_cell col_active (economically_active r);
   numeric_cell col_employed (employed r);
   numeric_cell col_unemployed (unemployed r);
   numeric_cell col_rate (unemployment_rate r)].

Definition frame_of (df : DataFrame) : Frame :=
  mkFrame [col_year; col_region; col_active; col_employed; col_unemployed; col_rate]
          (cells_of <$> df).

Definition cell_text (c : cell) : string :=
  match c with
  | CInt z => pretty z
  | CStr s => s
  | CFloat q => repr_float q
  end.

(** [frame.to_csv(index=False)]: the header, then the rows. *)
Definition to_csv (f : Frame) : string :=
  csv_writerow (frame_columns f)
  +:+ String.concat EmptyString ((fun row => csv_writerow (cell_text <$> row)) <$> frame_rows f).

(** Line 105. *)
Definition csv_data (subset : DataFrame) : list ascii :=
  encode_utf8_sig (to_csv (frame_of subset)).

(** *** 4.1 The key figures *)
Definition kpi_section (subset : DataFrame) : Run unit :=
  _ ← call (st_markdown "### 📌 요약 (선택된 기간 및 지역)");
  _ ← call (st_columns [1; 1; 1]%Q);
  _ ← call (st_in "col1"
        (st_metric "총 취업자 (천명)" (py_format ",.0f" (Num (total_employed subset)))));
  _ ← call (st_in "col2"
        (st_metric "총 실업자 (천명)" (py_format ",.0f" (Num (total_unemployed subset)))));
  _ ← call (st_in "col3"
        (st_metric "평균 실업률 (%)" (py_format ".2f" (avg_unemployment_rate subset) +:+ "%")));
  call (st_markdown "---").

(** *** 4.2 The charts *)
Definition charts_section (years : list Z) (subset : DataFrame) : Run unit :=
  _ ← call (st_columns [3 # 2; 1]%Q);
  _ ← call (st_in "col1" (st_subheader "📈 연도별 취업자 수 추이"));
  _ ← (if decide (1 < length years)
       then call (st_in "col1" (st_line_chart (line_chart_df subset)))
       else call (st_in "col1" (st_info "추이 비교를 위해 2개 이상의 연도를 선택하세요.")));
  _ ← call (st_in "col2" (st_subheader "📊 취업/실업 비율 (전체 합산)"));
  _ ← call (st_in "col2" (st_bar_chart (ratio_data subset)));
  _ ← call (st_subheader
        ("🏢 지역별 실업률 비교 (" +:+ join ", " (pretty <$> years) +:+ "년)"));
  call (st_bar_chart (bar_chart_df subset)).

(** *** 4.3 The table and the download *)
Definition detail_section (subset : DataFrame) : Run unit :=
  _ ← call (st_expander "📄 상세 데이터 보기");
  _ ← call (st_in "expander"
        (st_dataframe (mkStyler subset [(col_rate, "{:.2f}%")])));
  call (st_in "expander"
    (st_download_button "📥 CSV로 다운로드" (csv_data subset)
       "filtered_economic_data.csv" "text/csv")).

Definition title_text : string := "🚀 경제활동인구 동향 대시보드".
Definition intro_text : string :=
  "사이드바에서 년도와 지역을 선택하여 데이터를 실시간으로 탐색하세요.".
Definition empty_selection_message : string :=
  "표시할 데이터를 보려면 년도와 지역을 하나 이상 선택해주세요.".
Definition no_data_message : string :=
  "선택하신 조건에 해당하는 데이터가 없습니다.".

(** ** 4. The dashboard *)
Definition main_dashboard (ui : Selection) (df : DataFrame) : Run unit :=
  _ ← call (st_title title_text);
  _ ← call (st_markdown intro_text);
  '(years, regions) ← setup_sidebar ui df;
  if bool_decide (years = []) || bool_decide (regions = [])
  then call (st_warning empty_selection_message)
  else
    let subset := filtered_df df years regions in
    if bool_decide (subset = [])
    then call (st_warning no_data_message)
    else
      _ ← kpi_section subset;
      _ ← charts_section years subset;
      detail_section subset.

Definition data_path : string := "경제활동_통합.csv".

(** ** 1. and the entry point: the page configuration, then the run *)
Definition main (fs : filesystem) (ui : Selection) : Run unit :=
  _ ← call (st_set_page_config "New 경제활동인구 대시보드" "🚀" "wide" "expanded");
  data ← load_data fs data_path;
  match data with
  | Some df => main_dashboard ui df
  | None => mret tt
  end.

End Dashboard.

(** ** A decimal runtime

    An instance of [PyText] that writes exact decimals: what Python writes
    whenever the float has a short decimal expansion.  The examples below run
    the dashboard with it. *)

Definition round_half_even (q : Q) : Z :=
  let f := Qfloor q in
  match (q - inject_Z f ?= 1 # 2)%Q with
  | Lt => f
  | Gt => (f + 1)%Z
  | Eq => if Z.even f then f else (f + 1)%Z
  end.

Fixpoint zero_pad (width : nat) (digits : string) : string :=
  match width - String.length digits with
  | O => digits
  | S _ =>
      match width with
      | O => digits
      | S width' => "0" +:+ zero_pad width' digits
      end
  end.

(** The digits of [n] in groups of three, as the [,] option of a format
    spec writes them. *)
Fixpoint group_thousands (fuel : nat) (n : Z) : string :=
  match fuel with
  | O => pretty n
  | S fuel' =>
      if (n <? 1000)%Z then pretty n
      else group_thousands fuel' (n / 1000) +:+ "," +:+ zero_pad 3 (pretty (n mod 1000)%Z)
  end.

(** [q] with [digits] decimals, rounded half to even. *)
Definition fixed (grouped : bool) (digits : nat) (q : Q) : string :=
  let scale := (10 ^ Z.of_nat digits)%Z in
  let n := round_half_even (q * inject_Z scale) in
  let m := Z.abs n in
  (if (n <? 0)%Z then "-" else EmptyString)
  +:+ (if grouped then group_thousands (Z.to_nat (Z.log2 m)) (m / scale) else pretty (m / scale)%Z)
  +:+ match digits with
      | O => EmptyString
      | _ => "." +:+ zero_pad digits (pretty (m mod scale)%Z)
      end.

(** The least number of decimals, from one on, that writes [q] exactly. *)
Fixpoint exact_decimals (fuel digits : nat) (q : Q) : nat :=
  match fuel with
  | O => digits
  | S fuel' =>
      if Qeq_bool (inject_Z (Qfloor (q * inject_Z (10 ^ Z.of_nat digits))))
                  (q * inject_Z (10 ^ Z.of_nat digits))
      then digits
      else exact_decimals fuel' (S digits) q
  end.

Definition decimal_repr (q : Q) : string := fixed false (exact_decimals 16 1 q) q.

Definition decimal_format (spec : string) (v : pyfloat) : string :=
  match v with
  | NaN => "nan"
  | Num q =>
      if decide (spec = ".2f") then fixed false 2 q
      else if decide (spec = ",.0f") then fixed true 0 q
      else decimal_repr q
  end.

Definition LF : string := String (ascii_of_nat 10) EmptyString.
Definition double_quote : ascii := ascii_of_nat 34.

Definition needs_quoting (field : string) : bool :=
  existsb (fun c => bool_decide (c ∈ ["," % char; double_quote; ascii_of_nat 10; ascii_of_nat 13]))
          (list_ascii_of_string field).

Fixpoint escape_quotes (field : string) : string :=
  match field with
  | EmptyString => EmptyString
  | String c field' =>
      if decide (c = double_quote) then String c (String c (escape_quotes field'))
      else String c (escape_quotes field')
  end.

Definition quote_minimal (field : string) : string :=
  if needs_quoting field
  then String double_quote (escape_quotes field +:+ String double_quote EmptyString)
  else field.

Definition posix_writerow (fields : list string) : string :=
  join "," (quote_minimal <$> fields) +:+ LF.

(** The sample tables hold whole numbers of thousands: their three count
    columns are [int64], the column of rates is [float64]. *)
Definition sample_dtype (column : string) : dtype :=
  if decide (column = col_rate) then float64 else int64.

Definition decimal_runtime : PyText :=
  {| repr_float := decimal_repr;
     py_format := decimal_format;
     csv_writerow := posix_writerow;
     csv_field := quote_minimal;
     os_linesep := LF;
     column_dtype := sample_dtype |}.

(** ** What the export relies on *)

(** A field that [csv.writer] writes as it is: no comma, no quote, no line
    break. *)
Definition csv_plain (field : string) : bool := negb (needs_quoting field).

(** The characters of the default text of a number: digits, sign, point,
    exponent, and the letters of [inf] and [nan]. *)
Definition number_char (c : ascii) : bool :=
  bool_decide (c ∈ list_ascii_of_string "0123456789+-.einfa").

Definition number_text (s : string) : bool :=
  negb (bool_decide (s = EmptyString)) && forallb number_char (list_ascii_of_string s).

(** The laws of the runtime: a row of two or more fields is written as the
    fields between commas, ended by the line terminator; a plain field is
    written as it is; the default text of a float is the text of a number. *)
Class PyTextLaws (text : PyText) : Prop := {
  csv_writerow_fields : forall fields : list string,
    1 < length fields ->
    csv_writerow fields = join "," (csv_field <$> fields) +:+ os_linesep;
  csv_field_plain : forall field : string,
    csv_plain field = true -> csv_field field = field;
  repr_float_number : forall q : Q, number_text (repr_float q) = true
}.

(** ** Reading a run *)

(** The calls that put a figure of the aggregator, a chart, the table or the
    export on the page. *)
Fixpoint presents_data (c : st_call) : bool :=
  match c with
  | st_metric _ _ | st_line_chart _ | st_bar_chart _
  | st_dataframe _ | st_download_button _ _ _ _ => true
  | st_in _ c' => presents_data c'
  | _ => false
  end.

(** The sum of a field over a table, row after row. *)
Fixpoint sum_over (field : Record_ -> Q) (subset : DataFrame) : Q :=
  match subset with
  | [] => 0%Q
  | r :: subset' => (field r + sum_over field subset')%Q
  end.




(** Two floats with the same value. *)
Definition pyfloat_eq (v w : pyfloat) : Prop :=
  match v, w with
  | Num a, Num b => (a == b)%Q
  | NaN, NaN => True
  | _, _ => False
  end.

(** The options of the two sidebar widgets, as [setup_sidebar] computes
    them. *)
Definition year_options (df : DataFrame) : list Z :=
  sorted_years_reverse (unique (year <$> df)).
Definition region_options (df : DataFrame) : list string :=
  sorted_regions (unique (region <$> df)).

(** ** Sample tables *)

(** Scenario A of the specification: one region and the nation-wide total. *)
Definition scenario_A_rows : list SourceRow :=
  [mkSourceRow 2023 "서울특별시" 6000 5700 300;
   mkSourceRow 2023 "계" 30000 28500 1500].

(** A table with an empty labour force in one region. *)
Definition zero_denominator_rows : list SourceRow :=
  [mkSourceRow 2022 "경기도" 0 0 7;
   mkSourceRow 2023 "서울특별시" 6000 5700 300].

(** A region where nobody is out of work. *)
Definition full_employment_rows : list SourceRow :=
  [mkSourceRow 2023 "세종특별자치시" 100 100 0].

(** A row that meets [economically_active >= employed + unemployed >= 0]
    with a negative count of employed. *)
Definition negative_employed_rows : list SourceRow :=
  [mkSourceRow 2023 "서울특별시" 100 (-50) 150].

(** Two years of the four regions that the sidebar preselects, with the
    totals.  The rows of 2023 extend scenario A, those of 2022 are
    scenario C. *)
Definition sample_rows : list SourceRow :=
  [mkSourceRow 2022 "서울특별시" 200 100 100;
   mkSourceRow 2022 "경기도" 250 200 50;
   mkSourceRow 2022 "부산광역시" 100 90 10;
   mkSourceRow 2022 "인천광역시" 100 95 5;
   mkSourceRow 2022 "계" 650 485 165;
   mkSourceRow 2023 "서울특별시" 6000 5700 300;
   mkSourceRow 2023 "경기도" 8000 7600 400;
   mkSourceRow 2023 "부산광역시" 1700 1650 50;
   mkSourceRow 2023 "인천광역시" 1600 1540 60;
   mkSourceRow 2023 "계" 30000 28500 1500].

Definition sample_df : DataFrame :=
  [mkRecord 2022 "서울특별시" 200 100 100 (100 / 200 * 100);
   mkRecord 2022 "경기도" 250 200 50 (50 / 250 * 100);
   mkRecord 2022 "부산광역시" 100 90 10 (10 / 100 * 100);
   mkRecord 2022 "인천광역시" 100 95 5 (5 / 100 * 100);
   mkRecord 2023 "서울특별시" 6000 5700 300 (300 / 6000 * 100);
   mkRecord 2023 "경기도" 8000 7600 400 (400 / 8000 * 100);
   mkRecord 2023 "부산광역시" 1700 1650 50 (50 / 1700 * 100);
   mkRecord 2023 "인천광역시" 1600 1540 60 (60 / 1600 * 100)].

(** The four regions again, two of them outside the ranges of the data
    model. *)
Definition out_of_range_rows : list SourceRow :=
  [mkSourceRow 2023 "서울특별시" 200 0 300;
   mkSourceRow 2023 "경기도" 200 250 (-50);
   mkSourceRow 2023 "부산광역시" 100 90 10;
   mkSourceRow 2023 "인천광역시" 100 95 5].

Definition fs_with (rows : list SourceRow) : filesystem := {[ data_path := Csv rows ]}.

(** A file system where the table exists and may not be opened. *)
Definition unreadable_fs : filesystem := {[ data_path := Unreadable ]}.

(** Selections over the sample table. *)
Definition scenario_A_selection : Selection := mkSelection [2023%Z] ["서울특별시"].
Definition scenario_C_selection : Selection := mkSelection [2022%Z] ["서울특별시"; "경기도"].
Definition no_year_selected : Selection := mkSelection [] ["서울특별시"].
Definition year_without_data : Selection := mkSelection [2021%Z] ["서울특별시"].

Definition scenario_A_subset : DataFrame :=
  [mkRecord 2023 "서울특별시" 6000 5700 300 (300 / 6000 * 100)].

Definition scenario_C_subset : DataFrame :=
  [mkRecord 2022 "서울특별시" 200 100 100 (100 / 200 * 100);
   mkRecord 2022 "경기도" 250 200 50 (50 / 250 * 100)].

(** * Properties *)

(** ** Runs *)

Lemma Qgtb_true (x y : Q) : Qgtb x y = true <-> (y < x)%Q.
Proof.
  unfold Qgtb. rewrite negb_true_iff, <- not_true_iff_false, Qle_bool_iff.
  split; [apply Qnot_le_lt | apply Qlt_not_le].
Qed.

Lemma Qgtb_false (x y : Q) : Qgtb x y = false <-> ~ (y < x)%Q.
Proof. rewrite <- Qgtb_true. destruct (Qgtb x y); intuition congruence. Qed.

Lemma py_truediv_nonzero (x y : Q) :
  ~ (y == 0)%Q -> py_truediv x y = Return (x / y)%Q.
Proof.
  intros Hy. unfold py_truediv.
  destruct (Qeq_bool y 0) eqn:E; [|reflexivity].
  apply Qeq_bool_iff in E. contradiction.
Qed.

(** ** The loader *)

(** The lambda never raises: the guard keeps the zero divisors away from
    the division. *)
Lemma rate_lambda_returns (row : SourceRow) :
  rate_lambda row =
  Return (if Qgtb (src_active row) 0
          then (src_unemployed row / src_active row * 100)%Q else 0%Q).
Proof.
  unfold rate_lambda. destruct (Qgtb (src_active row) 0) eqn:E; [|reflexivity].
  apply Qgtb_true in E. rewrite py_truediv_nonzero; [reflexivity|].
  intros Hz. rewrite Hz in E. revert E. apply Qlt_irrefl.
Qed.

Lemma apply_axis1_returns {A B} (f : A -> outcome B) (g : A -> B) (df : list A) :
  (forall row, f row = Return (g row)) ->
  apply_axis1 f df = Return (g <$> df).
Proof.
  intros Hf. induction df as [|row df IH]; [reflexivity|].
  cbn. rewrite Hf. cbn. rewrite IH. reflexivity.
Qed.

Lemma source_of_with_rate (row : SourceRow) (v : Q) : source_of (with_rate row v) = row.
Proof. destruct row; reflexivity. Qed.

Lemma assign_rate_fmap (g : SourceRow -> Q) (df : list SourceRow) :
  assign_rate df (g <$> df) = (fun row => with_rate row (g row)) <$> df.
Proof. induction df as [|row df IH]; [reflexivity|]. cbn. f_equal. exact IH. Qed.

Lemma source_of_assigned (g : SourceRow -> Q) (df : list SourceRow) :
  source_of <$> ((fun row => with_rate row (g row)) <$> df) = df.
Proof.
  induction df as [|row df IH]; [reflexivity|].
  cbn. rewrite source_of_with_rate. f_equal. exact IH.
Qed.

(** What [load_data] returns on a readable table. *)
Lemma load_data_readable (fs : filesystem) (path : string) (rows : list SourceRow) :
  fs !! path = Some (Csv rows) ->
  load_data fs path =
  ([], Return (Some ((fun row =>
                        with_rate row
                          (if Qgtb (src_active row) 0
                           then (src_unemployed row / src_active row * 100)%Q else 0%Q))
                     <$> drop_aggregate rows))).
Proof.
  intros Hfs. unfold load_data, pd_read_csv. rewrite Hfs. cbn.
  rewrite (apply_axis1_returns _ _ _ rate_lambda_returns). cbn.
  rewrite assign_rate_fmap. reflexivity.
Qed.

(** Whatever [load_data] returns as a table was read from a table. *)
Lemma load_data_inv (fs : filesystem) (path : string) calls (df : DataFrame) :
  load_data fs path = (calls, Return (Some df)) ->
  exists rows, fs !! path = Some (Csv rows).
Proof.
  unfold load_data, pd_read_csv.
  destruct (fs !! path) as [[rows| |]|]; cbn; try discriminate.
  intros _. exists rows. reflexivity.
Qed.

Lemma loaded_record (fs : filesystem) (path : string) calls (df : DataFrame) (r : Record_) :
  load_data fs path = (calls, Return (Some df)) -> r ∈ df ->
  region r <> aggregate_marker /\
  unemployment_rate r =
  (if Qgtb (economically_active r) 0
   then (unemployed r / economically_active r * 100)%Q else 0%Q).
Proof.
  intros Hload Hr. destruct (load_data_inv _ _ _ _ Hload) as [rows Hfs].
  rewrite (load_data_readable _ _ _ Hfs) in Hload.
  injection Hload as _ <-.
  apply list_elem_of_fmap in Hr as (row & -> & Hrow).
  apply list_elem_of_filter in Hrow as [Hne _].
  destruct row; split; [exact Hne | reflexivity].
Qed.

(** C1. On every readable table [load_data] returns normally, also when a
    row has a zero denominator; the rows it keeps are the source rows other
    than the total, and the rate of each is
    [unemployed / economically_active * 100] when [economically_active > 0]
    and [0] otherwise. *)
Theorem C1_unemployment_rate_formula (fs : filesystem) (path : string) (rows : list SourceRow) :
  fs !! path = Some (Csv rows) ->
  exists df : DataFrame,
    load_data fs path = ([], Return (Some df)) /\
    source_of <$> df = drop_aggregate rows /\
    forall r, r ∈ df ->
      ((0 < economically_active r)%Q ->
       unemployment_rate r = (unemployed r / economically_active r * 100)%Q) /\
      (~ (0 < economically_active r)%Q -> unemployment_rate r = 0%Q).
Proof.
  intros Hfs. eexists. split; [apply (load_data_readable _ _ _ Hfs)|]. split.
  - apply source_of_assigned.
  - intros r Hr.
    destruct (loaded_record _ _ _ _ r (load_data_readable _ _ _ Hfs) Hr) as [_ ->].
    destruct (Qgtb (economically_active r) 0) eqn:E.
    + apply Qgtb_true in E. split; [reflexivity | contradiction].
    + apply Qgtb_false in E. split; [contradiction | reflexivity].
Qed.

Lemma C1_unemployment_rate_formula_witness :
  fs_with zero_denominator_rows !! data_path = Some (Csv zero_denominator_rows) /\
  exists df : DataFrame,
    load_data (fs_with zero_denominator_rows) data_path = ([], Return (Some df)) /\
    source_of <$> df = drop_aggregate zero_denominator_rows /\
    forall r, r ∈ df ->
      ((0 < economically_active r)%Q ->
       unemployment_rate r = (unemployed r / economically_active r * 100)%Q) /\
      (~ (0 < economically_active r)%Q -> unemployment_rate r = 0%Q).
Proof.
  split; [reflexivity|].
  apply (C1_unemployment_rate_formula (fs_with zero_denominator_rows) data_path
           zero_denominator_rows).
  reflexivity.
Defined.

(** A zero-denominator row is kept, with rate [0], next to an ordinary one. *)
Example load_zero_denominator :
  load_data (fs_with zero_denominator_rows) data_path =
  ([], Return (Some [mkRecord 2022 "경기도" 0 0 7 0;
                     mkRecord 2023 "서울특별시" 6000 5700 300 (300 / 6000 * 100)])).
Proof. reflexivity. Qed.

(** ** The filter *)

Lemma boolean_index_filter {A} (P : A -> Prop) `{forall x, Decision (P x)} (df : list A) :
  boolean_index df ((fun x => bool_decide (P x)) <$> df) = filter P df.
Proof.
  induction df as [|row df IH]; [reflexivity|].
  rewrite fmap_cons, filter_cons. cbn [boolean_index]. rewrite IH.
  destruct (decide (P row)) as [Hp|Hp].
  - rewrite (bool_decide_eq_true_2 _ Hp). reflexivity.
  - rewrite (bool_decide_eq_false_2 _ Hp). reflexivity.
Qed.

Lemma selection_mask (df : DataFrame) (years : list Z) (regions : list string) :
  mask_and (isin (year <$> df) years) (isin (region <$> df) regions)
  = (fun r => bool_decide (year r ∈ years /\ region r ∈ regions)) <$> df.
Proof.
  induction df as [|r df IH]; [reflexivity|].
  unfold mask_and, isin in *. cbn. rewrite IH. f_equal.
  symmetry. apply bool_decide_and.
Qed.

Lemma filtered_df_filter (df : DataFrame) (years : list Z) (regions : list string) :
  filtered_df df years regions
  = filter (fun r => year r ∈ years /\ region r ∈ regions) df.
Proof. unfold filtered_df. rewrite selection_mask. apply boolean_index_filter. Qed.

(** A subsequence whose rows all pass is a subsequence of the filtered list. *)
Lemma sublist_filter_greatest {A} (P : A -> Prop) `{forall x, Decision (P x)} (l df : list A) :
  l `sublist_of` df -> Forall P l -> l `sublist_of` filter P df.
Proof.
  intros Hsub. induction Hsub as [|x l1 l2 Hsub IH|x l1 l2 Hsub IH]; intros Hall.
  - constructor.
  - apply Forall_cons in Hall as [Hx Hall].
    rewrite filter_cons_True by exact Hx. constructor. apply IH, Hall.
  - rewrite filter_cons. destruct (decide (P x)).
    + constructor. apply IH, Hall.
    + apply IH, Hall.
Qed.

(** C5. The filter returns the records whose year is selected and whose
    region is selected, both at once, in the order of the table: it is the
    greatest subsequence of the table with that property.  It is a function
    of the table and the two selections, and the table is left as it is. *)
Theorem C5_filter_conjunction (df : DataFrame) (years : list Z) (regions : list string) :
  filtered_df df years regions
  = filter (fun r => year r ∈ years /\ region r ∈ regions) df /\
  (forall r, r ∈ filtered_df df years regions
             <-> r ∈ df /\ year r ∈ years /\ region r ∈ regions) /\
  filtered_df df years regions `sublist_of` df /\
  (forall l, l `sublist_of` df ->
             Forall (fun r => year r ∈ years /\ region r ∈ regions) l ->
             l `sublist_of` filtered_df df years regions).
Proof.
  rewrite filtered_df_filter. split; [reflexivity|]. split; [|split].
  - intros r. rewrite list_elem_of_filter. tauto.
  - apply sublist_filter.
  - intros l. apply sublist_filter_greatest.
Qed.

(** C4. No record of a loaded table has the region of the total row: the
    table holds the source rows without the total rows, the rate is computed
    on those rows only, and no subset that the filter hands on has one. *)
Theorem C4_no_aggregate_rows (fs : filesystem) (path : string) calls (df : DataFrame) :
  load_data fs path = (calls, Return (Some df)) ->
  (forall r, r ∈ df -> region r <> aggregate_marker) /\
  (forall years regions r, r ∈ filtered_df df years regions -> region r <> aggregate_marker) /\
  (exists rows,
     fs !! path = Some (Csv rows) /\
     source_of <$> df = filter (fun row => src_region row <> aggregate_marker) rows /\
     apply_axis1 rate_lambda (filter (fun row => src_region row <> aggregate_marker) rows)
     = Return (unemployment_rate <$> df)).
Proof.
  intros Hload. split; [|split].
  - intros r Hr. apply (loaded_record _ _ _ _ r Hload Hr).
  - intros years regions r Hr. rewrite filtered_df_filter in Hr.
    apply list_elem_of_filter in Hr as [_ Hr].
    apply (loaded_record _ _ _ _ r Hload Hr).
  - destruct (load_data_inv _ _ _ _ Hload) as [rows Hfs]. exists rows.
    split; [exact Hfs|].
    rewrite (load_data_readable _ _ _ Hfs) in Hload. injection Hload as _ <-.
    fold (drop_aggregate rows). split.
    + apply source_of_assigned.
    + rewrite (apply_axis1_returns _ _ _ rate_lambda_returns).
      rewrite <- list_fmap_compose. reflexivity.
Qed.

Lemma C4_no_aggregate_rows_witness :
  load_data (fs_with scenario_A_rows) data_path
  = ([], Return (Some [mkRecord 2023 "서울특별시" 6000 5700 300 (300 / 6000 * 100)])) /\
  forall r, r ∈ [mkRecord 2023 "서울특별시" 6000 5700 300 (300 / 6000 * 100)] ->
            region r <> aggregate_marker.
Proof.
  split; [reflexivity|].
  apply (C4_no_aggregate_rows (fs_with scenario_A_rows) data_path []
           [mkRecord 2023 "서울특별시" 6000 5700 300 (300 / 6000 * 100)]).
  reflexivity.
Defined.

(** ** The run of the dashboard *)

Section DashboardRuns.
Context `{PyText}.

Lemma setup_sidebar_run (ui : Selection) (df : DataFrame) :
  setup_sidebar ui df
  = (calls_of (setup_sidebar ui df), Return (selected_years ui, selected_regions ui)).
Proof. reflexivity. Qed.

Lemma kpi_section_run (subset : DataFrame) :
  kpi_section subset = (calls_of (kpi_section subset), Return tt).
Proof. reflexivity. Qed.

Lemma charts_section_run (years : list Z) (subset : DataFrame) :
  charts_section years subset = (calls_of (charts_section years subset), Return tt).
Proof. unfold charts_section. destruct (decide (1 < length years)); reflexivity. Qed.

Lemma detail_section_run (subset : DataFrame) :
  detail_section subset = (calls_of (detail_section subset), Return tt).
Proof. reflexivity. Qed.

(** The three ways a run of the dashboard goes. *)
Lemma main_dashboard_run (ui : Selection) (df : DataFrame) :
  main_dashboard ui df =
  ([st_title title_text; st_markdown intro_text] ++ calls_of (setup_sidebar ui df) ++
   (if bool_decide (selected_years ui = []) || bool_decide (selected_regions ui = [])
    then [st_warning empty_selection_message]
    else
      let subset := filtered_df df (selected_years ui) (selected_regions ui) in
      if bool_decide (subset = [])
      then [st_warning no_data_message]
      else calls_of (kpi_section subset)
           ++ calls_of (charts_section (selected_years ui) subset)
           ++ calls_of (detail_section subset)),
   Return tt).
Proof.
  unfold main_dashboard. rewrite setup_sidebar_run.
  destruct (bool_decide (selected_years ui = []) || bool_decide (selected_regions ui = []))
    eqn:Esel.
  - cbn. rewrite Esel. reflexivity.
  - cbn -[kpi_section charts_section detail_section filtered_df]. rewrite Esel.
    destruct (bool_decide (filtered_df df (selected_years ui) (selected_regions ui) = []))
      eqn:Esub; [reflexivity|].
    rewrite kpi_section_run, charts_section_run, detail_section_run.
    cbn -[kpi_section charts_section detail_section filtered_df].
    rewrite ?app_nil_r. reflexivity.
Qed.

Lemma setup_sidebar_presents_nothing (ui : Selection) (df : DataFrame) :
  Forall (fun c => presents_data c = false) (calls_of (setup_sidebar ui df)).
Proof. repeat constructor. Qed.

(** C6. With no year or no region selected, the run of the dashboard is the
    title, the sidebar and the warning that asks for a selection; it returns
    there, and no figure, chart, table or export of the aggregator is part
    of it. *)
Theorem C6_empty_selection_short_circuits (ui : Selection) (df : DataFrame) :
  selected_years ui = [] \/ selected_regions ui = [] ->
  main_dashboard ui df
  = ([st_title title_text; st_markdown intro_text] ++ calls_of (setup_sidebar ui df)
     ++ [st_warning empty_selection_message], Return tt) /\
  Forall (fun c => presents_data c = false) (calls_of (main_dashboard ui df)).
Proof.
  intros Hsel.
  assert (bool_decide (selected_years ui = []) || bool_decide (selected_regions ui = [])
          = true) as Hb.
  { apply orb_true_iff. destruct Hsel as [Hy|Hg]; [left|right]; apply bool_decide_eq_true_2;
      assumption. }
  assert (main_dashboard ui df
          = ([st_title title_text; st_markdown intro_text] ++ calls_of (setup_sidebar ui df)
             ++ [st_warning empty_selection_message], Return tt)) as Hrun.
  { rewrite main_dashboard_run, Hb. reflexivity. }
  split; [exact Hrun|]. rewrite Hrun. unfold calls_of at 1. cbn [fst].
  apply Forall_app. split; [repeat constructor|].
  apply Forall_app. split; [apply setup_sidebar_presents_nothing | repeat constructor].
Qed.

(** C7. When the selection matches no record, the run ends with the warning
    that no data matches, before any figure of the aggregator: no metric,
    chart, table or export is part of it, so no mean over nothing is shown. *)
Theorem C7_empty_subset_no_summary (ui : Selection) (df : DataFrame) :
  selected_years ui <> [] -> selected_regions ui <> [] ->
  filtered_df df (selected_years ui) (selected_regions ui) = [] ->
  main_dashboard ui df
  = ([st_title title_text; st_markdown intro_text] ++ calls_of (setup_sidebar ui df)
     ++ [st_warning no_data_message], Return tt) /\
  Forall (fun c => presents_data c = false) (calls_of (main_dashboard ui df)).
Proof.
  intros Hy Hg Hsub.
  assert (main_dashboard ui df
          = ([st_title title_text; st_markdown intro_text] ++ calls_of (setup_sidebar ui df)
             ++ [st_warning no_data_message], Return tt)) as Hrun.
  { rewrite main_dashboard_run.
    rewrite (bool_decide_eq_false_2 _ Hy), (bool_decide_eq_false_2 _ Hg). cbn [orb].
    cbv zeta. rewrite Hsub. reflexivity. }
  split; [exact Hrun|]. rewrite Hrun. unfold calls_of at 1. cbn [fst].
  apply Forall_app. split; [repeat constructor|].
  apply Forall_app. split; [apply setup_sidebar_presents_nothing | repeat constructor].
Qed.

(** The guard matters: the mean of no rate is NaN. *)
Remark mean_of_nothing : avg_unemployment_rate [] = NaN.
Proof. reflexivity. Qed.

(** ** The aggregator *)

Lemma fold_left_Qplus (field : Record_ -> Q) (subset : DataFrame) (acc : Q) :
  (fold_left Qplus (field <$> subset) acc == acc + sum_over field subset)%Q.
Proof.
  revert acc. induction subset as [|r subset IH]; intros acc; cbn.
  - ring.
  - rewrite IH. ring.
Qed.

Lemma Series_sum_sum_over (field : Record_ -> Q) (subset : DataFrame) :
  (Series_sum (field <$> subset) == sum_over field subset)%Q.
Proof. unfold Series_sum. rewrite fold_left_Qplus. ring. Qed.

Lemma Series_mean_nonempty (field : Record_ -> Q) (subset : DataFrame) :
  subset <> [] ->
  Series_mean (field <$> subset)
  = Num (Series_sum (field <$> subset) / inject_Z (Z.of_nat (length subset))).
Proof.
  destruct subset as [|r subset]; [congruence|]. intros _.
  unfold Series_mean. rewrite length_fmap. reflexivity.
Qed.

Lemma nonempty_subset_selection (df : DataFrame) (years : list Z) (regions : list string) :
  filtered_df df years regions <> [] -> years <> [] /\ regions <> [].
Proof.
  rewrite filtered_df_filter. intros Hne.
  destruct (filter _ df) as [|r l] eqn:E; [congruence|].
  assert (r ∈ filter (fun r => year r ∈ years /\ region r ∈ regions) df) as Hr
    by (rewrite E; constructor).
  apply list_elem_of_filter in Hr as [[Hy Hg] _].
  split; intros ->; eapply not_elem_of_nil; eassumption.
Qed.

Lemma main_dashboard_presents (ui : Selection) (df : DataFrame) (c : st_call) :
  filtered_df df (selected_years ui) (selected_regions ui) <> [] ->
  c ∈ calls_of (kpi_section (filtered_df df (selected_years ui) (selected_regions ui))) ->
  c ∈ calls_of (main_dashboard ui df).
Proof.
  intros Hne Hc. destruct (nonempty_subset_selection _ _ _ Hne) as [Hy Hg].
  rewrite main_dashboard_run.
  rewrite (bool_decide_eq_false_2 _ Hy), (bool_decide_eq_false_2 _ Hg). cbn [orb].
  cbv zeta. rewrite (bool_decide_eq_false_2 _ Hne).
  unfold calls_of at 1. cbn [fst].
  rewrite !elem_of_app. right. right. left. exact Hc.
Qed.

(** C3. On a subset with records, the three figures that the dashboard
    shows are: the sum of [employed] over the subset, the sum of
    [unemployed] over the subset, and the sum of the rates of the records
    divided by the number of records.  That mean is not the rate of the
    totals: on scenario C the two differ. *)
Theorem C3_summary_scalars (ui : Selection) (df subset : DataFrame) :
  subset = filtered_df df (selected_years ui) (selected_regions ui) ->
  subset <> [] ->
  (st_in "col1" (st_metric "총 취업자 (천명)" (py_format ",.0f" (Num (total_employed subset))))
     ∈ calls_of (main_dashboard ui df) /\
   st_in "col2" (st_metric "총 실업자 (천명)" (py_format ",.0f" (Num (total_unemployed subset))))
     ∈ calls_of (main_dashboard ui df) /\
   st_in "col3" (st_metric "평균 실업률 (%)"
                   (py_format ".2f" (avg_unemployment_rate subset) +:+ "%"))
     ∈ calls_of (main_dashboard ui df)) /\
  (total_employed subset == sum_over employed subset)%Q /\
  (total_unemployed subset == sum_over unemployed subset)%Q /\
  (exists mean : Q,
     avg_unemployment_rate subset = Num mean /\
     (mean == sum_over unemployment_rate subset / inject_Z (Z.of_nat (length subset)))%Q) /\
  (exists mean : Q,
     avg_unemployment_rate scenario_C_subset = Num mean /\
     ~ (mean == total_unemployed scenario_C_subset
                / Series_sum (economically_active <$> scenario_C_subset) * 100)%Q).
Proof.
  intros -> Hne. split; [|split; [|split; [|split]]].
  - split; [|split]; apply main_dashboard_presents; try exact Hne; cbn;
      rewrite !elem_of_cons; tauto.
  - apply Series_sum_sum_over.
  - apply Series_sum_sum_over.
  - eexists. split; [apply Series_mean_nonempty, Hne|].
    rewrite Series_sum_sum_over. reflexivity.
  - eexists. split; [reflexivity|]. intros Heq. vm_compute in Heq. discriminate Heq.
Qed.

(** ** Loading fails *)

(** C9 (amended). When no file exists at the path, [load_data] reports it
    with [st.error] and returns no table, and the run ends there: nothing of
    the dashboard is called.  A file that exists but cannot be read is not
    handled as a missing file: its exception leaves [load_data] and ends the
    run, with no report, and again before anything of the dashboard. *)
Theorem C9_missing_file_halts (fs : filesystem) (ui : Selection) :
  (forall rows, fs !! data_path <> Some (Csv rows)) ->
  match fs !! data_path with
  | None =>
      load_data fs data_path = ([st_error (not_found_message data_path)], Return None) /\
      main fs ui
      = ([st_set_page_config "New 경제활동인구 대시보드" "🚀" "wide" "expanded";
          st_error (not_found_message data_path)], Return tt)
  | Some _ =>
      exists e, e <> FileNotFoundError /\
        load_data fs data_path = ([], Raise e) /\
        main fs ui
        = ([st_set_page_config "New 경제활동인구 대시보드" "🚀" "wide" "expanded"], Raise e)
  end.
Proof.
  intros Hnot. unfold main, load_data, pd_read_csv.
  destruct (fs !! data_path) as [[rows| |]|] eqn:E.
  - exfalso. apply (Hnot rows). reflexivity.
  - exists PermissionError. repeat split; congruence.
  - exists IsADirectoryError. repeat split; congruence.
  - split; reflexivity.
Qed.

End DashboardRuns.

(** ** The export *)

Lemma list_ascii_of_string_app (a b : string) :
  list_ascii_of_string (a +:+ b) = list_ascii_of_string a ++ list_ascii_of_string b.
Proof. induction a as [|c a IH]; [reflexivity|]. simpl. rewrite IH. reflexivity. Qed.

Lemma number_char_plain (c : ascii) :
  number_char c = true ->
  bool_decide (c ∈ [","%char; double_quote; ascii_of_nat 10; ascii_of_nat 13]) = false.
Proof.
  destruct c as [[] [] [] [] [] [] [] []]; vm_compute; intros Hc;
    first [reflexivity | discriminate Hc].
Qed.

Lemma number_char_not_percent (c : ascii) : number_char c = true -> c <> "%"%char.
Proof. intros Hc ->. vm_compute in Hc. discriminate Hc. Qed.

Lemma number_text_chars (s : string) :
  number_text s = true ->
  s <> EmptyString /\ forallb number_char (list_ascii_of_string s) = true.
Proof.
  unfold number_text. intros Hs. apply andb_true_iff in Hs as [Hne Hall].
  split; [|exact Hall]. apply negb_true_iff, bool_decide_eq_false in Hne. exact Hne.
Qed.

Lemma number_text_intro (s : string) :
  s <> EmptyString -> forallb number_char (list_ascii_of_string s) = true ->
  number_text s = true.
Proof.
  intros Hne Hall. unfold number_text. rewrite Hall, andb_true_r.
  apply negb_true_iff, bool_decide_eq_false. exact Hne.
Qed.

Lemma number_text_plain (s : string) : number_text s = true -> csv_plain s = true.
Proof.
  intros Hs. apply number_text_chars in Hs as [_ Hall].
  unfold csv_plain, needs_quoting. apply negb_true_iff.
  induction (list_ascii_of_string s) as [|c l IH]; [reflexivity|].
  cbn in Hall. apply andb_true_iff in Hall as [Hc Hl].
  cbn [existsb]. rewrite (number_char_plain c Hc), (IH Hl). reflexivity.
Qed.

Lemma number_text_not_percent (s t : string) : number_text s = true -> s <> t +:+ "%".
Proof.
  intros Hs ->. apply number_text_chars in Hs as [_ Hall].
  rewrite list_ascii_of_string_app, forallb_app in Hall.
  apply andb_true_iff in Hall as [_ Hp]. vm_compute in Hp. discriminate Hp.
Qed.

(** The digits of an integer are the text of a number. *)
Lemma pretty_N_char_number (d : N) : number_char (pretty_N_char d) = true.
Proof. unfold pretty_N_char. repeat case_match; reflexivity. Qed.

Lemma pretty_N_go_number (x : N) (s : string) :
  s <> EmptyString -> forallb number_char (list_ascii_of_string s) = true ->
  pretty_N_go x s <> EmptyString /\
  forallb number_char (list_ascii_of_string (pretty_N_go x s)) = true.
Proof.
  revert s. induction (N.lt_wf_0 x) as [x _ IH]. intros s Hne Hall.
  assert (x = 0 \/ 0 < x)%N as [->|Hpos] by lia.
  - rewrite pretty_N_go_0. split; assumption.
  - rewrite pretty_N_go_step by exact Hpos. apply IH.
    + apply N.div_lt; [exact Hpos | reflexivity].
    + discriminate.
    + cbn. rewrite pretty_N_char_number, Hall. reflexivity.
Qed.

Lemma pretty_N_number (x : N) : number_text (pretty x) = true.
Proof.
  unfold pretty, pretty_N. destruct (decide (x = 0%N)) as [->|Hx]; [reflexivity|].
  assert (0 < x)%N as Hpos by lia.
  rewrite pretty_N_go_step by exact Hpos.
  destruct (pretty_N_go_number (x `div` 10)%N
              (String (pretty_N_char (x `mod` 10)%N) EmptyString)) as [Hne Hall].
  - discriminate.
  - cbn. rewrite pretty_N_char_number. reflexivity.
  - apply number_text_intro; assumption.
Qed.

Lemma pretty_Z_number (z : Z) : number_text (pretty z) = true.
Proof.
  destruct z as [|p|p].
  - reflexivity.
  - apply (pretty_N_number (Npos p)).
  - change (pretty (Zneg p)) with ("-" +:+ pretty (Npos p)).
    destruct (number_text_chars _ (pretty_N_number (Npos p))) as [_ Hall].
    apply number_text_intro; [discriminate|]. cbn. exact Hall.
Qed.

Lemma number_chars_app (a b : string) :
  forallb number_char (list_ascii_of_string a) = true ->
  forallb number_char (list_ascii_of_string b) = true ->
  forallb number_char (list_ascii_of_string (a +:+ b)) = true.
Proof.
  intros Ha Hb. rewrite list_ascii_of_string_app, forallb_app, Ha, Hb. reflexivity.
Qed.

Lemma app_not_empty_r (a b : string) : b <> EmptyString -> a +:+ b <> EmptyString.
Proof. destruct a; [intros Hb; exact Hb | discriminate]. Qed.

Lemma app_not_empty_l (a b : string) : a <> EmptyString -> a +:+ b <> EmptyString.
Proof. destruct a; [congruence | discriminate]. Qed.

Lemma zero_pad_number (width : nat) (digits : string) :
  forallb number_char (list_ascii_of_string digits) = true ->
  forallb number_char (list_ascii_of_string (zero_pad width digits)) = true.
Proof.
  intros Hd. induction width as [|width IH]; cbn [zero_pad].
  - destruct (0 - String.length digits); exact Hd.
  - destruct (S width - String.length digits); [exact Hd|].
    apply number_chars_app; [reflexivity | exact IH].
Qed.

(** The decimal runtime keeps the laws. *)
Lemma decimal_repr_number (q : Q) : number_text (decimal_repr q) = true.
Proof.
  unfold decimal_repr, fixed.
  set (digits := exact_decimals 16 1 q).
  set (scale := (10 ^ Z.of_nat digits)%Z).
  set (n := round_half_even (q * inject_Z scale)).
  destruct (number_text_chars _ (pretty_Z_number (Z.abs n / scale))) as [Hne Hint].
  destruct (number_text_chars _ (pretty_Z_number (Z.abs n `mod` scale))) as [_ Hfrac].
  apply number_text_intro.
  - apply app_not_empty_r, app_not_empty_l, Hne.
  - apply number_chars_app; [destruct (n <? 0)%Z; reflexivity|].
    apply number_chars_app; [exact Hint|].
    destruct digits; [reflexivity|].
    apply number_chars_app; [reflexivity|]. apply zero_pad_number, Hfrac.
Qed.

Lemma decimal_runtime_laws : PyTextLaws decimal_runtime.
Proof.
  split.
  - intros fields _. reflexivity.
  - intros field Hplain. cbn. unfold quote_minimal.
    apply negb_true_iff in Hplain. rewrite Hplain. reflexivity.
  - intros q. apply decimal_repr_number.
Qed.

Lemma append_empty_r (s : string) : s +:+ EmptyString = s.
Proof.
  induction s as [|c s IH]; [reflexivity|].
  change (String c (s +:+ EmptyString) = String c s). f_equal. exact IH.
Qed.

Lemma concat_cons (x : string) (xs : list string) :
  String.concat EmptyString (x :: xs) = x +:+ String.concat EmptyString xs.
Proof. destruct xs; [symmetry; apply append_empty_r | reflexivity]. Qed.

Section ExportBytes.
Context `{PyText} (laws : PyTextLaws H).

Lemma numeric_cell_number (column : string) (q : Q) :
  number_text (cell_text (numeric_cell column q)) = true.
Proof.
  unfold numeric_cell. destruct (column_dtype column); cbn [cell_text].
  - apply pretty_Z_number.
  - apply repr_float_number.
Qed.

Lemma csv_field_number (s : string) : number_text s = true -> csv_field s = s.
Proof. intros Hs. apply csv_field_plain, number_text_plain, Hs. Qed.

Lemma to_csv_rows (subset : list Record_) :
  String.concat EmptyString
    ((fun row => csv_writerow (cell_text <$> row)) <$> (cells_of <$> subset))
  = String.concat EmptyString
      ((fun r =>
          join ","
            [pretty (year r); csv_field (region r);
             cell_text (numeric_cell col_active (economically_active r));
             cell_text (numeric_cell col_employed (employed r));
             cell_text (numeric_cell col_unemployed (unemployed r));
             cell_text (numeric_cell col_rate (unemployment_rate r))]
          +:+ os_linesep)
       <$> subset).
Proof.
  induction subset as [|r subset IH]; [reflexivity|].
  rewrite !fmap_cons, !concat_cons, IH.
  rewrite (csv_writerow_fields (cell_text <$> cells_of r)) by (cbn; lia).
  unfold cells_of. cbn [fmap list_fmap cell_text].
  rewrite (csv_field_number _ (pretty_Z_number (year r))).
  rewrite !(csv_field_number _ (numeric_cell_number _ _)). reflexivity.
Qed.
(** C2 (amended). For a subset whose rows fit the types of the columns, the
    export is the byte-order marker followed by the UTF-8 text of the table:
    a header row with the five source columns and the derived one, then one
    row per record, in order; the fields of a row stand between commas and
    the row ends with the line terminator.  The region is written as it is
    when it holds no comma, quote or line break.  A numeric cell is written
    in the default text of its column, the digits of the integer in an
    [int64] column and the text of the float in a [float64] column.  So is
    the rate: its text is the text of a number, without a percent sign, and
    differs from the ["{:.2f}%"] text, which is set on the table shown on
    the page only; the export does not read that format. *)
Theorem C2_export_bytes (subset : DataFrame) :
  (forall r, r ∈ subset -> well_typed r) ->
  csv_data subset
  = BOM_UTF8 ++
    list_ascii_of_string
      (join "," [col_year; col_region; col_active; col_employed; col_unemployed; col_rate]
       +:+ os_linesep
       +:+ String.concat EmptyString
             ((fun r =>
                 join ","
                   [pretty (year r); csv_field (region r);
                    cell_text (numeric_cell col_active (economically_active r));
                    cell_text (numeric_cell col_employed (employed r));
                    cell_text (numeric_cell col_unemployed (unemployed r));
                    cell_text (numeric_cell col_rate (unemployment_rate r))]
                 +:+ os_linesep)
              <$> subset)) /\
  take 3 (csv_data subset) = [ascii_of_nat 239; ascii_of_nat 187; ascii_of_nat 191] /\
  (forall r, r ∈ subset -> csv_plain (region r) = true -> csv_field (region r) = region r) /\
  (forall r column q, r ∈ subset -> (column, q) ∈ numeric_columns r ->
     match column_dtype column with
     | int64 => exists z : Z, cell_text (numeric_cell column q) = pretty z /\
                              (inject_Z z == q)%Q
     | float64 => cell_text (numeric_cell column q) = repr_float q
     end) /\
  (forall q : Q,
     number_text (cell_text (numeric_cell col_rate q)) = true /\
     cell_text (numeric_cell col_rate q) <> py_format ".2f" (Num q) +:+ "%") /\
  calls_of (detail_section subset)
  = [st_expander "📄 상세 데이터 보기";
     st_in "expander" (st_dataframe (mkStyler subset [(col_rate, "{:.2f}%")]));
     st_in "expander"
       (st_download_button "📥 CSV로 다운로드" (csv_data subset)
          "filtered_economic_data.csv" "text/csv")].
Proof.
  intros Hrows. split; [|split; [|split; [|split; [|split]]]].
  - unfold csv_data, encode_utf8_sig, to_csv, frame_of. cbn [frame_columns frame_rows].
    rewrite csv_writerow_fields by (cbn; lia).
    rewrite (to_csv_rows subset). cbn [fmap list_fmap].
    rewrite !csv_field_plain by reflexivity. reflexivity.
  - reflexivity.
  - intros r _ Hplain. apply csv_field_plain, Hplain.
  - intros r column q Hr Hcell. pose proof (Hrows r Hr) as Htyped.
    specialize (Htyped column q Hcell). unfold numeric_cell.
    destruct (column_dtype column); cbn [cell_text]; [|reflexivity].
    exists (Qfloor q). split; [reflexivity|]. apply Htyped. reflexivity.
  - intros q. split; [apply numeric_cell_number|].
    apply number_text_not_percent, numeric_cell_number.
  - reflexivity.
Qed.

End ExportBytes.

Lemma C2_export_bytes_witness :
  (forall r, r ∈ scenario_A_subset -> @well_typed decimal_runtime r) /\
  @csv_data decimal_runtime scenario_A_subset
  = BOM_UTF8 ++
    list_ascii_of_string
      ("년도,지역,경제활동인구 (천명),취업자 (천명),실업자 (천명),실업률 (%)" +:+ LF
       +:+ "2023,서울특별시,6000,5700,300,5.0" +:+ LF).
Proof.
  assert (forall r, r ∈ scenario_A_subset -> @well_typed decimal_runtime r) as Hrows.
  { intros r Hr. apply list_elem_of_singleton in Hr as ->.
    intros column q Hcell _. unfold numeric_columns in Hcell.
    repeat (apply elem_of_cons in Hcell as [[= -> ->]|Hcell]; [vm_compute; reflexivity|]).
    apply elem_of_nil in Hcell. contradiction. }
  split; [exact Hrows|].
  destruct (@C2_export_bytes decimal_runtime decimal_runtime_laws scenario_A_subset Hrows)
    as (Hbytes & _).
  rewrite Hbytes. vm_compute. reflexivity.
Defined.

(** C2, as stated, fails on scenario A: the run ends with the download
    button, and the rate of the exported row is written [5.0], where the
    two-decimal percentage would be [5.00%]. *)
Lemma C2_exported_rate_is_unformatted :
  load_data (fs_with sample_rows) data_path = ([], Return (Some sample_df)) /\
  filtered_df sample_df (selected_years scenario_A_selection)
    (selected_regions scenario_A_selection) = scenario_A_subset /\
  last (calls_of (@main decimal_runtime (fs_with sample_rows) scenario_A_selection))
  = Some (st_in "expander"
            (st_download_button "📥 CSV로 다운로드"
               (BOM_UTF8 ++
                list_ascii_of_string
                  ("년도,지역,경제활동인구 (천명),취업자 (천명),실업자 (천명),실업률 (%)" +:+ LF
                   +:+ "2023,서울특별시,6000,5700,300,5.0" +:+ LF))
               "filtered_economic_data.csv" "text/csv")) /\
  (exists r, scenario_A_subset = [r] /\
     @py_format decimal_runtime ".2f" (Num (unemployment_rate r)) +:+ "%" = "5.00%").
Proof.
  split; [reflexivity|]. split; [vm_compute; reflexivity|].
  split; [vm_compute; reflexivity|].
  eexists. split; [reflexivity|]. vm_compute. reflexivity.
Qed.

(** ** The range of the rate *)

Lemma rate_between_0_and_100 (a u : Q) :
  (0 < a)%Q -> (0 <= u)%Q -> (u <= a)%Q -> (0 <= u / a * 100 <= 100)%Q.
Proof.
  intros Ha Hu Hua.
  assert (0 <= u / a)%Q by (apply Qle_shift_div_l; [exact Ha | lra]).
  assert (u / a <= 1)%Q by (apply Qle_shift_div_r; [exact Ha | lra]).
  split; lra.
Qed.

Lemma rate_zero_iff (a u : Q) :
  (0 < a)%Q -> (u / a * 100 == 0)%Q <-> (u == 0)%Q.
Proof.
  intros Ha. split; intros Hz.
  - assert (u == u / a * 100 * (a / 100))%Q as -> by (field; lra).
    rewrite Hz. ring.
  - rewrite Hz. field. lra.
Qed.

(** C8 (amended). For a record of a loaded table: the rate is between 0 and
    100 when [employed] and [unemployed] are not negative and
    [economically_active >= employed + unemployed]; the rate is 0 when
    [economically_active] is 0, whatever [unemployed] is; and the rate is 0
    exactly when [economically_active <= 0] or [unemployed] is 0. *)
Theorem C8_rate_range (fs : filesystem) (path : string) calls (df : DataFrame) (r : Record_) :
  load_data fs path = (calls, Return (Some df)) -> r ∈ df ->
  ((0 <= employed r)%Q -> (0 <= unemployed r)%Q ->
   (employed r + unemployed r <= economically_active r)%Q ->
   (0 <= unemployment_rate r <= 100)%Q) /\
  ((economically_active r == 0)%Q -> (unemployment_rate r == 0)%Q) /\
  ((unemployment_rate r == 0)%Q
   <-> (economically_active r <= 0)%Q \/ (unemployed r == 0)%Q).
Proof.
  intros Hload Hr. destruct (loaded_record _ _ _ _ r Hload Hr) as [_ ->].
  destruct (Qgtb (economically_active r) 0) eqn:E.
  - apply Qgtb_true in E. split; [|split].
    + intros He Hu Hsum. apply rate_between_0_and_100; [exact E | exact Hu | lra].
    + intros Hz. rewrite Hz in E. exfalso. revert E. apply Qlt_irrefl.
    + rewrite (rate_zero_iff _ _ E). split; [tauto|]. intros [Hle|Hz]; [lra | exact Hz].
  - apply Qgtb_false in E. split; [|split].
    + intros _ _ _. split; lra.
    + intros _. reflexivity.
    + split; [|reflexivity]. intros _. left. apply Qnot_lt_le, E.
Qed.

Lemma C8_rate_range_witness :
  load_data (fs_with scenario_A_rows) data_path = ([], Return (Some scenario_A_subset)) /\
  (forall r, r ∈ scenario_A_subset ->
     ((0 <= employed r)%Q -> (0 <= unemployed r)%Q ->
      (employed r + unemployed r <= economically_active r)%Q ->
      (0 <= unemployment_rate r <= 100)%Q) /\
     ((economically_active r == 0)%Q -> (unemployment_rate r == 0)%Q) /\
     ((unemployment_rate r == 0)%Q
      <-> (economically_active r <= 0)%Q \/ (unemployed r == 0)%Q)).
Proof.
  split; [reflexivity|]. intros r Hr.
  apply (C8_rate_range (fs_with scenario_A_rows) data_path [] scenario_A_subset r);
    [reflexivity | exact Hr].
Defined.

(** C8, as stated, fails where nobody is out of work: the record meets
    [economically_active >= employed + unemployed >= 0] and its rate is 0,
    yet [economically_active] is not 0. *)
Lemma C8_zero_rate_with_positive_denominator :
  exists r,
    load_data (fs_with full_employment_rows) data_path = ([], Return (Some [r])) /\
    (employed r + unemployed r <= economically_active r)%Q /\
    (0 <= employed r + unemployed r)%Q /\
    (unemployment_rate r == 0)%Q /\
    ~ (economically_active r == 0)%Q.
Proof.
  eexists. split; [reflexivity|]. cbn.
  repeat split; try (intros Hle; vm_compute in Hle; discriminate Hle).
Qed.

(** The bound needs the counts not to be negative: this row meets
    [economically_active >= employed + unemployed >= 0] and its rate is 150. *)
Example rate_above_100_with_negative_employed :
  exists r,
    load_data (fs_with negative_employed_rows) data_path = ([], Return (Some [r])) /\
    (employed r + unemployed r <= economically_active r)%Q /\
    (0 <= employed r + unemployed r)%Q /\
    (unemployment_rate r == 150)%Q.
Proof.
  eexists. split; [reflexivity|]. cbn.
  repeat split; try (intros Hle; vm_compute in Hle; discriminate Hle).
Qed.

(** C10. The loader checks no range: a row with more unemployed than
    economically active gets a rate above 100, a row with a negative count of
    unemployed gets a negative rate; both are kept as they are, pass the
    filter, and enter the sums and the mean of the aggregator. *)
Theorem C10_no_range_validation :
  exists (df subset : DataFrame) (r1 r2 : Record_),
    load_data (fs_with out_of_range_rows) data_path = ([], Return (Some df)) /\
    source_of <$> df = out_of_range_rows /\
    r1 ∈ df /\ (0 < economically_active r1)%Q /\
    (economically_active r1 < unemployed r1)%Q /\ (100 < unemployment_rate r1)%Q /\
    r2 ∈ df /\ (unemployed r2 < 0)%Q /\ (0 < economically_active r2)%Q /\
    (unemployment_rate r2 < 0)%Q /\
    filtered_df df [2023%Z] ["서울특별시"; "경기도"] = subset /\
    subset = [r1; r2] /\
    (total_employed subset == 250)%Q /\
    (total_unemployed subset == 250)%Q /\
    (exists mean, avg_unemployment_rate subset = Num mean /\ (mean == 125 # 2)%Q).
Proof.
  eexists. eexists. eexists. eexists. split; [reflexivity|]. split; [reflexivity|].
  split; [apply list_elem_of_here|]. do 3 (split; [reflexivity|]).
  split; [apply list_elem_of_further, list_elem_of_here|]. do 3 (split; [reflexivity|]).
  split; [vm_compute; reflexivity|]. split; [reflexivity|].
  do 2 (split; [reflexivity|]).
  eexists. split; reflexivity.
Qed.

(** ** The theorems at sample inputs *)

Example load_sample :
  load_data (fs_with sample_rows) data_path = ([], Return (Some sample_df)).
Proof. reflexivity. Qed.

(** Scenario A: the total row is dropped, and the filter returns the one
    row of the region, with a rate of 5. *)
Example scenario_A :
  load_data (fs_with scenario_A_rows) data_path = ([], Return (Some scenario_A_subset)) /\
  filtered_df scenario_A_subset [2023%Z] ["서울특별시"] = scenario_A_subset /\
  Forall (fun r => (unemployment_rate r == 5)%Q) scenario_A_subset.
Proof.
  split; [reflexivity|]. split; [vm_compute; reflexivity|].
  repeat constructor.
Qed.

Lemma C3_summary_scalars_witness :
  scenario_C_subset
  = filtered_df sample_df (selected_years scenario_C_selection)
      (selected_regions scenario_C_selection) /\
  scenario_C_subset <> [] /\
  (total_employed scenario_C_subset == 300)%Q /\
  (exists mean : Q,
     avg_unemployment_rate scenario_C_subset = Num mean /\
     (mean == sum_over unemployment_rate scenario_C_subset
              / inject_Z (Z.of_nat (length scenario_C_subset)))%Q).
Proof.
  assert (scenario_C_subset
          = filtered_df sample_df (selected_years scenario_C_selection)
              (selected_regions scenario_C_selection)) as Hsub by (vm_compute; reflexivity).
  assert (scenario_C_subset <> []) as Hne by discriminate.
  split; [exact Hsub|]. split; [exact Hne|].
  destruct (@C3_summary_scalars decimal_runtime scenario_C_selection sample_df
              scenario_C_subset Hsub Hne) as (_ & He & _ & Hmean & _).
  split; [|exact Hmean]. rewrite He. reflexivity.
Defined.

(** Scenario C as the page shows it: the mean of 50 and 20, not 150/450. *)
Example scenario_C_figures :
  calls_of (@kpi_section decimal_runtime scenario_C_subset)
  = [st_markdown "### 📌 요약 (선택된 기간 및 지역)";
     st_columns [1; 1; 1]%Q;
     st_in "col1" (st_metric "총 취업자 (천명)" "300");
     st_in "col2" (st_metric "총 실업자 (천명)" "150");
     st_in "col3" (st_metric "평균 실업률 (%)" "35.00%");
     st_markdown "---"].
Proof. vm_compute. reflexivity. Qed.

Lemma C6_empty_selection_short_circuits_witness :
  (selected_years no_year_selected = [] \/ selected_regions no_year_selected = []) /\
  @main_dashboard decimal_runtime no_year_selected sample_df
  = ([st_title title_text; st_markdown intro_text]
     ++ calls_of (setup_sidebar no_year_selected sample_df)
     ++ [st_warning empty_selection_message], Return tt) /\
  Forall (fun c => presents_data c = false)
         (calls_of (@main_dashboard decimal_runtime no_year_selected sample_df)).
Proof.
  split; [left; reflexivity|].
  apply (@C6_empty_selection_short_circuits decimal_runtime no_year_selected sample_df).
  left. reflexivity.
Defined.

Lemma C7_empty_subset_no_summary_witness :
  filtered_df sample_df (selected_years year_without_data)
    (selected_regions year_without_data) = [] /\
  @main_dashboard decimal_runtime year_without_data sample_df
  = ([st_title title_text; st_markdown intro_text]
     ++ calls_of (setup_sidebar year_without_data sample_df)
     ++ [st_warning no_data_message], Return tt) /\
  Forall (fun c => presents_data c = false)
         (calls_of (@main_dashboard decimal_runtime year_without_data sample_df)).
Proof.
  split; [vm_compute; reflexivity|].
  apply (@C7_empty_subset_no_summary decimal_runtime year_without_data sample_df).
  - discriminate.
  - discriminate.
  - vm_compute. reflexivity.
Defined.

Lemma C9_missing_file_halts_witness :
  (forall rows, (∅ : filesystem) !! data_path <> Some (Csv rows)) /\
  load_data ∅ data_path = ([st_error (not_found_message data_path)], Return None) /\
  @main decimal_runtime ∅ scenario_A_selection
  = ([st_set_page_config "New 경제활동인구 대시보드" "🚀" "wide" "expanded";
      st_error (not_found_message data_path)], Return tt).
Proof.
  assert (forall rows, (∅ : filesystem) !! data_path <> Some (Csv rows)) as Hmissing
    by (intros rows Hx; vm_compute in Hx; discriminate Hx).
  split; [exact Hmissing|].
  exact (@C9_missing_file_halts decimal_runtime ∅ scenario_A_selection Hmissing).
Defined.

(** C9, as stated, fails on a file that exists and may not be opened: the
    path resolves to no readable file, yet [load_data] does not end as for a
    missing file; it raises [PermissionError], reports nothing, and the
    exception ends the run. *)
Lemma C9_unreadable_file_is_not_reported :
  (forall rows, unreadable_fs !! data_path <> Some (Csv rows)) /\
  load_data unreadable_fs data_path = ([], Raise PermissionError) /\
  @main decimal_runtime unreadable_fs scenario_A_selection
  = ([st_set_page_config "New 경제활동인구 대시보드" "🚀" "wide" "expanded"],
     Raise PermissionError).
Proof.
  split; [|split; reflexivity].
  intros rows Hx. vm_compute in Hx. discriminate Hx.
Qed.

(** * Further properties *)

(** ** More on the filter *)

(** X1. Filtering a filtered subset again by the same selection changes
    nothing. *)
Theorem X1_filter_idempotent (df : DataFrame) (years : list Z) (regions : list string) :
  filtered_df (filtered_df df years regions) years regions = filtered_df df years regions.
Proof.
  rewrite !filtered_df_filter. apply list_filter_filter_r. tauto.
Qed.

(** X2. A narrower selection can be applied to the subset of a wider one:
    the result is the subset of the narrower selection on the whole table,
    and it is a subsequence of the wider subset. *)
Theorem X2_filter_narrowing (df : DataFrame) (years years' : list Z)
    (regions regions' : list string) :
  years ⊆ years' -> regions ⊆ regions' ->
  filtered_df (filtered_df df years' regions') years regions = filtered_df df years regions /\
  filtered_df df years regions `sublist_of` filtered_df df years' regions'.
Proof.
  intros Hy Hg.
  assert (filtered_df (filtered_df df years' regions') years regions
          = filtered_df df years regions) as Heq.
  { rewrite !filtered_df_filter. apply list_filter_filter_l.
    intros r [Hry Hrg]. split; [apply Hy, Hry | apply Hg, Hrg]. }
  split; [exact Heq|]. rewrite <- Heq.
  rewrite (filtered_df_filter (filtered_df df years' regions')). apply sublist_filter.
Qed.

(** X3. The filter reads the two selections as sets: the order of the
    selected values and repetitions among them do not change the subset. *)
Theorem X3_filter_selection_as_set (df : DataFrame) (years years' : list Z)
    (regions regions' : list string) :
  (forall y, y ∈ years <-> y ∈ years') -> (forall g, g ∈ regions <-> g ∈ regions') ->
  filtered_df df years regions = filtered_df df years' regions'.
Proof.
  intros Hy Hg. rewrite !filtered_df_filter. apply list_filter_iff.
  intros r. rewrite Hy, Hg. reflexivity.
Qed.

Lemma elem_of_unique {A} `{EqDecision A} (x : A) (l : list A) : x ∈ unique l <-> x ∈ l.
Proof.
  induction l as [|a l IH]; [reflexivity|].
  cbn [unique]. rewrite !elem_of_cons, list_elem_of_filter, IH.
  destruct (decide (x = a)); tauto.
Qed.

Lemma NoDup_unique {A} `{EqDecision A} (l : list A) : NoDup (unique l).
Proof.
  induction l as [|a l IH]; [constructor|].
  cbn [unique]. constructor.
  - rewrite list_elem_of_filter. tauto.
  - apply NoDup_filter, IH.
Qed.

Lemma elem_of_year_options (df : DataFrame) (y : Z) :
  y ∈ year_options df <-> y ∈ year <$> df.
Proof.
  unfold year_options, sorted_years_reverse.
  rewrite merge_sort_Permutation. apply elem_of_unique.
Qed.

Lemma elem_of_region_options (df : DataFrame) (g : string) :
  g ∈ region_options df <-> g ∈ region <$> df.
Proof.
  unfold region_options, sorted_regions.
  rewrite merge_sort_Permutation. apply elem_of_unique.
Qed.

Lemma filter_all {A} (P : A -> Prop) `{forall x, Decision (P x)} (l : list A) :
  Forall P l -> filter P l = l.
Proof.
  induction 1 as [|x l Hx Hall IH]; [reflexivity|].
  rewrite filter_cons_True by exact Hx. f_equal. exact IH.
Qed.

(** X4. Selecting every year and every region that the sidebar offers
    gives back the whole table. *)
Theorem X4_all_options_keep_table (df : DataFrame) :
  filtered_df df (year_options df) (region_options df) = df.
Proof.
  rewrite filtered_df_filter. apply filter_all, Forall_forall. intros r Hr.
  rewrite elem_of_year_options, elem_of_region_options.
  split; apply list_elem_of_fmap_2, Hr.
Qed.

(** ** The options of the sidebar *)

Lemma setup_sidebar_calls (ui : Selection) (df : DataFrame) :
  calls_of (setup_sidebar ui df)
  = [st_in "sidebar" (st_header "🔎 데이터 필터");
     st_in "sidebar"
       (st_multiselect_years "년도 선택:" (year_options df) (take 1 (year_options df)));
     st_in "sidebar"
       (st_multiselect_regions "지역 선택:" (region_options df) default_regions)].
Proof. reflexivity. Qed.

Lemma flip_Zle_total : Total (flip Z.le).
Proof. intros x y. unfold flip. lia. Qed.

Lemma flip_Zle_trans : Transitive (flip Z.le).
Proof. intros x y z. unfold flip. lia. Qed.

Lemma year_options_sorted (df : DataFrame) :
  StronglySorted (flip Z.le) (year_options df) /\ NoDup (year_options df).
Proof.
  unfold year_options, sorted_years_reverse. split.
  - apply StronglySorted_merge_sort; [apply flip_Zle_trans | apply flip_Zle_total].
  - rewrite merge_sort_Permutation. apply NoDup_unique.
Qed.

(** X5. The year widget offers every year of the table once, the latest
    first, and preselects the latest year alone; on a table without rows it
    offers and preselects nothing. *)
Theorem X5_year_options_latest_first (ui : Selection) (df : DataFrame) :
  exists options default,
    st_in "sidebar" (st_multiselect_years "년도 선택:" options default)
      ∈ calls_of (setup_sidebar ui df) /\
    (forall y, y ∈ options <-> y ∈ year <$> df) /\
    NoDup options /\
    StronglySorted (fun a b => (b <= a)%Z) options /\
    match df with
    | [] => default = []
    | _ => exists latest, default = [latest] /\ latest ∈ year <$> df /\
                          forall r, r ∈ df -> (year r <= latest)%Z
    end.
Proof.
  exists (year_options df), (take 1 (year_options df)).
  destruct (year_options_sorted df) as [Hsorted Hnodup].
  split; [rewrite setup_sidebar_calls; apply list_elem_of_further, list_elem_of_here|].
  split; [apply elem_of_year_options|]. split; [exact Hnodup|]. split; [exact Hsorted|].
  destruct df as [|r0 df']; [reflexivity|].
  destruct (year_options (r0 :: df')) as [|latest rest] eqn:E.
  - exfalso. assert (year r0 ∈ year_options (r0 :: df')) as Hin
      by (apply elem_of_year_options; rewrite fmap_cons; constructor).
    rewrite E in Hin. eapply not_elem_of_nil, Hin.
  - exists latest. split; [reflexivity|]. split.
    + apply elem_of_year_options. rewrite E. constructor.
    + intros r Hr.
      assert (year r ∈ latest :: rest) as Hin
        by (rewrite <- E; apply elem_of_year_options, list_elem_of_fmap_2, Hr).
      apply StronglySorted_inv in Hsorted as [_ Hall].
      apply elem_of_cons in Hin as [->|Hin]; [lia|].
      rewrite Forall_forall in Hall. apply (Hall _ Hin).
Qed.

Lemma ascii_compare_cases (a b : ascii) :
  match Ascii.compare a b with
  | Eq => a = b
  | Lt => (N_of_ascii a < N_of_ascii b)%N
  | Gt => (N_of_ascii b < N_of_ascii a)%N
  end.
Proof.
  unfold Ascii.compare. destruct (N.compare_spec (N_of_ascii a) (N_of_ascii b)) as [E|E|E].
  - rewrite <- (ascii_N_embedding a), <- (ascii_N_embedding b), E. reflexivity.
  - exact E.
  - exact E.
Qed.

Lemma str_le_trans (s1 s2 s3 : string) : str_le s1 s2 -> str_le s2 s3 -> str_le s1 s3.
Proof.
  unfold str_le, String.leb. revert s2 s3.
  induction s1 as [|c1 s1 IH]; intros [|c2 s2] [|c3 s3]; cbn; try congruence.
  pose proof (ascii_compare_cases c1 c2) as H12.
  pose proof (ascii_compare_cases c2 c3) as H23.
  pose proof (ascii_compare_cases c1 c3) as H13.
  destruct (Ascii.compare c1 c2), (Ascii.compare c2 c3), (Ascii.compare c1 c3);
    try congruence; subst; try lia; try (apply IH).
  all: try (rewrite ?ascii_compare_refl in *; congruence).
Qed.

Section DashboardOutcomes.
Context `{PyText}.

Lemma main_dashboard_render (ui : Selection) (df : DataFrame) :
  filtered_df df (selected_years ui) (selected_regions ui) <> [] ->
  calls_of (main_dashboard ui df)
  = [st_title title_text; st_markdown intro_text] ++ calls_of (setup_sidebar ui df)
    ++ calls_of (kpi_section (filtered_df df (selected_years ui) (selected_regions ui)))
    ++ calls_of (charts_section (selected_years ui)
                   (filtered_df df (selected_years ui) (selected_regions ui)))
    ++ calls_of (detail_section (filtered_df df (selected_years ui) (selected_regions ui))).
Proof.
  intros Hne. destruct (nonempty_subset_selection _ _ _ Hne) as [Hy Hg].
  rewrite main_dashboard_run.
  rewrite (bool_decide_eq_false_2 _ Hy), (bool_decide_eq_false_2 _ Hg). cbn [orb].
  cbv zeta. rewrite (bool_decide_eq_false_2 _ Hne). reflexivity.
Qed.

Lemma main_dashboard_warns (ui : Selection) (df : DataFrame) :
  filtered_df df (selected_years ui) (selected_regions ui) = [] ->
  exists body,
    calls_of (main_dashboard ui df)
    = [st_title title_text; st_markdown intro_text] ++ calls_of (setup_sidebar ui df)
      ++ [st_warning body].
Proof.
  intros Hsub. rewrite main_dashboard_run.
  destruct (bool_decide (selected_years ui = []) || bool_decide (selected_regions ui = [])).
  - eexists. reflexivity.
  - cbv zeta. rewrite Hsub. eexists. reflexivity.
Qed.

Ltac list_cases H :=
  repeat first
    [ apply elem_of_app in H as [H|H]
    | apply elem_of_cons in H as [H|H]
    | apply elem_of_nil in H; contradiction ].

(** X7. A run of the dashboard puts figures on the page exactly when the
    selection matches a record, and shows a warning exactly when it matches
    none. *)
Theorem X7_presents_iff_matching (ui : Selection) (df : DataFrame) :
  ((exists c, c ∈ calls_of (main_dashboard ui df) /\ presents_data c = true)
   <-> filtered_df df (selected_years ui) (selected_regions ui) <> []) /\
  ((exists body, st_warning body ∈ calls_of (main_dashboard ui df))
   <-> filtered_df df (selected_years ui) (selected_regions ui) = []).
Proof.
  destruct (decide (filtered_df df (selected_years ui) (selected_regions ui) = []))
    as [Hsub|Hne].
  - destruct (main_dashboard_warns ui df Hsub) as [body Hcalls]. rewrite Hcalls. split.
    + split; [|contradiction]. intros (c & Hc & Hp). exfalso.
      rewrite setup_sidebar_run in Hc. cbn in Hc.
      list_cases Hc; subst c; discriminate Hp.
    + split; [intros _; exact Hsub|]. intros _. exists body.
      rewrite !elem_of_app. right. right. constructor.
  - rewrite (main_dashboard_render ui df Hne). split.
    + split; [intros _; exact Hne|]. intros _. eexists. split; [|shelve].
      rewrite !elem_of_app. right. right. right. right. cbn.
      apply list_elem_of_further, list_elem_of_here. Unshelve. reflexivity.
    + split; [|contradiction]. intros (body & Hc). exfalso.
      unfold charts_section in Hc.
      destruct (decide (1 < length (selected_years ui))); cbn in Hc;
        list_cases Hc; discriminate Hc.
Qed.

(** X8. When the selection matches a record: the trend chart is drawn
    exactly when more than one year is selected, whether or not the subset
    has records of more than one year; otherwise the hint to select two
    years takes its place.  The ratio chart and the chart by region are
    drawn in both cases. *)
Theorem X8_trend_chart_needs_two_years (ui : Selection) (df subset : DataFrame) :
  subset = filtered_df df (selected_years ui) (selected_regions ui) ->
  subset <> [] ->
  ((exists data, st_in "col1" (st_line_chart data) ∈ calls_of (main_dashboard ui df))
   <-> 1 < length (selected_years ui)) /\
  ((exists body, st_in "col1" (st_info body) ∈ calls_of (main_dashboard ui df))
   <-> length (selected_years ui) <= 1) /\
  (1 < length (selected_years ui) ->
   st_in "col1" (st_line_chart (line_chart_df subset)) ∈ calls_of (main_dashboard ui df)) /\
  st_in "col2" (st_bar_chart (ratio_data subset)) ∈ calls_of (main_dashboard ui df) /\
  st_bar_chart (bar_chart_df subset) ∈ calls_of (main_dashboard ui df).
Proof.
  intros -> Hne. rewrite (main_dashboard_render ui df Hne).
  set (subset := filtered_df df (selected_years ui) (selected_regions ui)).
  assert (forall c, c ∈ calls_of (charts_section (selected_years ui) subset) ->
            c ∈ [st_title title_text; st_markdown intro_text]
                ++ calls_of (setup_sidebar ui df) ++ calls_of (kpi_section subset)
                ++ calls_of (charts_section (selected_years ui) subset)
                ++ calls_of (detail_section subset)) as Hcharts.
  { intros c Hc. rewrite !elem_of_app. right. right. right. left. exact Hc. }
  unfold charts_section in *.
  destruct (decide (1 < length (selected_years ui))) as [Hlen|Hlen].
  - split; [|split; [|split; [|split]]].
    + split; [intros _; exact Hlen|]. intros _. eexists. apply Hcharts. cbn.
      do 2 apply list_elem_of_further. apply list_elem_of_here.
    + split; [|lia]. intros (body & Hc). exfalso.
      cbn in Hc. list_cases Hc; discriminate Hc.
    + intros _. apply Hcharts. cbn. do 2 apply list_elem_of_further. apply list_elem_of_here.
    + apply Hcharts. cbn. do 4 apply list_elem_of_further. apply list_elem_of_here.
    + apply Hcharts. cbn. do 6 apply list_elem_of_further. apply list_elem_of_here.
  - split; [|split; [|split; [|split]]].
    + split; [|contradiction]. intros (data & Hc). exfalso.
      cbn in Hc. list_cases Hc; discriminate Hc.
    + split; [lia|]. intros _. eexists. apply Hcharts. cbn.
      do 2 apply list_elem_of_further. apply list_elem_of_here.
    + contradiction.
    + apply Hcharts. cbn. do 4 apply list_elem_of_further. apply list_elem_of_here.
    + apply Hcharts. cbn. do 6 apply list_elem_of_further. apply list_elem_of_here.
Qed.
End DashboardOutcomes.

(** ** More on the aggregator *)

Lemma count_succ (n : nat) :
  (inject_Z (Z.of_nat (S n)) == inject_Z (Z.of_nat n) + 1)%Q.
Proof. rewrite Nat2Z.inj_succ, <- Z.add_1_r, inject_Z_plus. reflexivity. Qed.

Lemma count_positive {A} (l : list A) :
  l <> [] -> (0 < inject_Z (Z.of_nat (length l)))%Q.
Proof.
  destruct l as [|x l]; [congruence|]. intros _.
  rewrite <- (Zlt_Qlt 0). cbn [length]. lia.
Qed.

Lemma sum_over_bounds (field : Record_ -> Q) (subset : DataFrame) (lo hi : Q) :
  (forall r, r ∈ subset -> (lo <= field r <= hi)%Q) ->
  (inject_Z (Z.of_nat (length subset)) * lo <= sum_over field subset
   <= inject_Z (Z.of_nat (length subset)) * hi)%Q.
Proof.
  induction subset as [|r subset IH]; intros Hall.
  - cbn [length sum_over]. change (inject_Z (Z.of_nat 0)) with 0%Q. split; lra.
  - cbn [length sum_over]. rewrite count_succ.
    destruct (Hall r) as [Hlo Hhi]; [constructor|].
    destruct IH as [IHlo IHhi]; [intros r' Hr'; apply Hall; constructor; exact Hr'|].
    split; lra.
Qed.

Lemma mean_bounds (field : Record_ -> Q) (subset : DataFrame) (lo hi : Q) :
  subset <> [] ->
  (forall r, r ∈ subset -> (lo <= field r <= hi)%Q) ->
  exists mean, Series_mean (field <$> subset) = Num mean /\ (lo <= mean <= hi)%Q.
Proof.
  intros Hne Hall. eexists. split; [apply Series_mean_nonempty, Hne|].
  rewrite Series_sum_sum_over.
  pose proof (count_positive subset Hne) as Hn.
  destruct (sum_over_bounds field subset lo hi Hall) as [Hlo Hhi].
  split.
  - apply Qle_shift_div_l; [exact Hn|]. lra.
  - apply Qle_shift_div_r; [exact Hn|]. lra.
Qed.

(** X9. In exact arithmetic, the mean shown for a subset with records lies
    between any two bounds that hold for the rate of every record.  (The
    binary64 mean can pass such a bound by a rounding error.) *)
Theorem X9_mean_between_extremes (subset : DataFrame) (lo hi : Q) :
  subset <> [] ->
  (forall r, r ∈ subset -> (lo <= unemployment_rate r <= hi)%Q) ->
  exists mean, avg_unemployment_rate subset = Num mean /\ (lo <= mean <= hi)%Q.
Proof. apply mean_bounds. Qed.

(** ** The region options *)

Lemma str_le_total : Total str_le.
Proof. intros a b. apply String.leb_total. Qed.

Lemma region_options_sorted (df : DataFrame) :
  StronglySorted str_le (region_options df) /\ NoDup (region_options df).
Proof.
  unfold region_options, sorted_regions. split.
  - apply StronglySorted_merge_sort; [exact str_le_trans | exact str_le_total].
  - rewrite merge_sort_Permutation. apply NoDup_unique.
Qed.

(** X6. The region widget offers every region of the loaded table once, in
    ascending order of the strings, and never the label of the total row. *)
Theorem X6_region_options_of_loaded_table (fs : filesystem) (path : string) calls
    (df : DataFrame) (ui : Selection) :
  load_data fs path = (calls, Return (Some df)) ->
  exists options,
    st_in "sidebar" (st_multiselect_regions "지역 선택:" options default_regions)
      ∈ calls_of (setup_sidebar ui df) /\
    (forall g, g ∈ options <-> g ∈ region <$> df) /\
    NoDup options /\
    StronglySorted (fun a b => String.leb a b = true) options /\
    aggregate_marker ∉ options.
Proof.
  intros Hload. exists (region_options df).
  destruct (region_options_sorted df) as [Hsorted Hnodup].
  split; [rewrite setup_sidebar_calls; do 2 apply list_elem_of_further;
          apply list_elem_of_here|].
  split; [apply elem_of_region_options|]. split; [exact Hnodup|].
  split; [exact Hsorted|].
  rewrite elem_of_region_options. intros Hin.
  apply list_elem_of_fmap in Hin as (r & Heq & Hr).
  destruct (loaded_record _ _ _ _ r Hload Hr) as [Hne _]. congruence.
Qed.

Lemma X6_region_options_of_loaded_table_witness :
  load_data (fs_with sample_rows) data_path = ([], Return (Some sample_df)) /\
  exists options,
    st_in "sidebar" (st_multiselect_regions "지역 선택:" options default_regions)
      ∈ calls_of (setup_sidebar scenario_A_selection sample_df) /\
    (forall g, g ∈ options <-> g ∈ region <$> sample_df) /\
    NoDup options /\
    StronglySorted (fun a b => String.leb a b = true) options /\
    aggregate_marker ∉ options.
Proof.
  split; [reflexivity|].
  apply (X6_region_options_of_loaded_table (fs_with sample_rows) data_path []
           sample_df scenario_A_selection).
  reflexivity.
Defined.

(** ** The chart by region *)

Lemma bar_chart_entry (subset : DataFrame) (g : string) (v : pyfloat) :
  (g, v) ∈ bar_chart_df subset ->
  g ∈ region <$> subset /\
  v = Series_mean (unemployment_rate <$> filter (fun r => region r = g) subset).
Proof.
  unfold bar_chart_df. fold (region_options subset). intros Hin.
  apply list_elem_of_fmap in Hin as (g' & Heq & Hg'). injection Heq as -> ->.
  split; [|reflexivity]. apply elem_of_region_options, Hg'.
Qed.

Lemma region_group_nonempty (subset : DataFrame) (g : string) :
  g ∈ region <$> subset -> filter (fun r => region r = g) subset <> [].
Proof.
  intros Hg Hnil. apply list_elem_of_fmap in Hg as (r & -> & Hr).
  apply (filter_nil_not_elem_of _ _ r Hnil); [reflexivity | exact Hr].
Qed.

(** X10. The chart by region has one bar per region of the subset, in
    ascending order of the names; every bar is a number, never NaN: the mean
    of the rates of the records of that region, which for a region with one
    record is the rate of that record. *)
Theorem X10_bar_chart_by_region (subset : DataFrame) :
  fst <$> bar_chart_df subset = region_options subset /\
  (forall g v, (g, v) ∈ bar_chart_df subset ->
     exists mean,
       v = Num mean /\
       (mean == sum_over unemployment_rate (filter (fun r => region r = g) subset)
                / inject_Z (Z.of_nat (length (filter (fun r => region r = g) subset))))%Q /\
       (forall r, filter (fun r => region r = g) subset = [r] ->
                  (mean == unemployment_rate r)%Q)).
Proof.
  split.
  - unfold bar_chart_df. fold (region_options subset).
    rewrite <- list_fmap_compose. apply list_fmap_id.
  - intros g v Hin. destruct (bar_chart_entry _ _ _ Hin) as [Hg ->].
    pose proof (region_group_nonempty _ _ Hg) as Hne.
    eexists. split; [apply Series_mean_nonempty, Hne|].
    rewrite Series_sum_sum_over. split; [reflexivity|].
    intros r ->. cbn. field.
Qed.

(** ** Figures within the range of the data *)

(** X11. When in every loaded record the unemployed are not negative and
    not more than the economically active, then for every selection that
    matches a record the mean shown is a number between 0 and 100, and so is
    every bar of the chart by region. *)
Theorem X11_figures_between_0_and_100 (fs : filesystem) (path : string) calls
    (df : DataFrame) (years : list Z) (regions : list string) :
  load_data fs path = (calls, Return (Some df)) ->
  (forall r, r ∈ df -> (0 <= unemployed r <= economically_active r)%Q) ->
  filtered_df df years regions <> [] ->
  (exists mean, avg_unemployment_rate (filtered_df df years regions) = Num mean /\
                (0 <= mean <= 100)%Q) /\
  (forall g v, (g, v) ∈ bar_chart_df (filtered_df df years regions) ->
               exists mean, v = Num mean /\ (0 <= mean <= 100)%Q).
Proof.
  intros Hload Hdata Hne.
  assert (forall r, r ∈ filtered_df df years regions ->
                    (0 <= unemployment_rate r <= 100)%Q) as Hrates.
  { intros r Hr. rewrite filtered_df_filter in Hr.
    apply list_elem_of_filter in Hr as [_ Hr].
    destruct (loaded_record _ _ _ _ r Hload Hr) as [_ ->].
    destruct (Hdata r Hr) as [Hu Hua].
    destruct (Qgtb (economically_active r) 0) eqn:E.
    - apply Qgtb_true in E. apply rate_between_0_and_100; assumption.
    - split; lra. }
  split.
  - apply mean_bounds; assumption.
  - intros g v Hin. destruct (bar_chart_entry _ _ _ Hin) as [Hg ->].
    apply mean_bounds; [apply region_group_nonempty, Hg|].
    intros r Hr. apply list_elem_of_filter in Hr as [_ Hr]. apply Hrates, Hr.
Qed.

Lemma X11_figures_between_0_and_100_witness :
  load_data (fs_with sample_rows) data_path = ([], Return (Some sample_df)) /\
  (exists mean,
     avg_unemployment_rate
       (filtered_df sample_df (selected_years scenario_C_selection)
          (selected_regions scenario_C_selection)) = Num mean /\
     (0 <= mean <= 100)%Q).
Proof.
  split; [reflexivity|].
  apply (X11_figures_between_0_and_100 (fs_with sample_rows) data_path [] sample_df
           (selected_years scenario_C_selection) (selected_regions scenario_C_selection)).
  - reflexivity.
  - intros r Hr.
    repeat (apply elem_of_cons in Hr as [->|Hr];
            [split; intros Hc; vm_compute in Hc; discriminate Hc|]).
    apply elem_of_nil in Hr. contradiction.
  - vm_compute. discriminate.
Defined.

Lemma X9_mean_between_extremes_witness :
  scenario_C_subset <> [] /\
  exists mean, avg_unemployment_rate scenario_C_subset = Num mean /\ (20 <= mean <= 50)%Q.
Proof.
  split; [discriminate|].
  apply (X9_mean_between_extremes scenario_C_subset 20 50); [discriminate|].
  intros r Hr.
  repeat (apply elem_of_cons in Hr as [->|Hr];
          [split; intros Hc; vm_compute in Hc; discriminate Hc|]).
  apply elem_of_nil in Hr. contradiction.
Defined.

(** ** The figures and the order of the rows *)

Lemma sum_over_Permutation (field : Record_ -> Q) (l1 l2 : DataFrame) :
  l1 ≡ₚ l2 -> (sum_over field l1 == sum_over field l2)%Q.
Proof.
  induction 1 as [|x l1 l2 _ IH|x y l|l1 l2 l3 _ IH12 _ IH23]; cbn.
  - reflexivity.
  - rewrite IH. reflexivity.
  - ring.
  - rewrite IH12. exact IH23.
Qed.

Lemma filtered_df_Permutation (df df' : DataFrame) (years : list Z) (regions : list string) :
  df ≡ₚ df' -> filtered_df df years regions ≡ₚ filtered_df df' years regions.
Proof. intros Hp. rewrite !filtered_df_filter. rewrite Hp. reflexivity. Qed.

(** X12. The three figures do not depend on the order of the rows of the
    table: two tables with the same rows give, for every selection, the same
    two totals and the same mean. *)
Theorem X12_figures_ignore_row_order (df df' : DataFrame) (years : list Z)
    (regions : list string) :
  df ≡ₚ df' ->
  (total_employed (filtered_df df years regions)
   == total_employed (filtered_df df' years regions))%Q /\
  (total_unemployed (filtered_df df years regions)
   == total_unemployed (filtered_df df' years regions))%Q /\
  pyfloat_eq (avg_unemployment_rate (filtered_df df years regions))
             (avg_unemployment_rate (filtered_df df' years regions)).
Proof.
  intros Hp. pose proof (filtered_df_Permutation _ _ years regions Hp) as Hsub.
  unfold total_employed, total_unemployed. rewrite !Series_sum_sum_over.
  split; [apply sum_over_Permutation, Hsub|].
  split; [apply sum_over_Permutation, Hsub|].
  unfold avg_unemployment_rate.
  destruct (decide (filtered_df df years regions = [])) as [Hnil|Hne].
  - rewrite Hnil in *. apply Permutation_nil_l in Hsub. rewrite <- Hsub. exact I.
  - assert (filtered_df df' years regions <> []) as Hne'.
    { intros Hnil. rewrite Hnil in Hsub. apply Permutation_nil_r in Hsub. contradiction. }
    rewrite !Series_mean_nonempty by assumption. cbn.
    rewrite !Series_sum_sum_over, (sum_over_Permutation _ _ _ Hsub).
    rewrite (Permutation_length Hsub). reflexivity.
Qed.

Lemma X12_figures_ignore_row_order_witness :
  sample_df ≡ₚ reverse sample_df /\
  (total_employed (filtered_df sample_df [2022%Z] default_regions)
   == total_employed (filtered_df (reverse sample_df) [2022%Z] default_regions))%Q.
Proof.
  assert (sample_df ≡ₚ reverse sample_df) as Hp by (symmetry; apply reverse_Permutation).
  split; [exact Hp|].
  apply (X12_figures_ignore_row_order sample_df (reverse sample_df) [2022%Z]
           default_regions Hp).
Defined.

(** ** The pivot of the trend chart *)






(** ** The mean and the rate of the totals *)

Lemma equal_population_sums (subset : list Record_) (a : Q) :
  ~ (a == 0)%Q ->
  (forall r, r ∈ subset ->
     (economically_active r == a)%Q /\
     (unemployment_rate r == unemployed r / economically_active r * 100)%Q) ->
  (sum_over unemployment_rate subset == sum_over unemployed subset / a * 100)%Q /\
  (sum_over economically_active subset == inject_Z (Z.of_nat (length subset)) * a)%Q.
Proof.
  intros Ha. induction subset as [|r subset IH]; intros Hall.
  - cbn [sum_over length]. change (inject_Z (Z.of_nat 0)) with 0%Q. split; field; exact Ha.
  - destruct (Hall r) as [Hact Hrate]; [constructor|].
    destruct IH as [IHrate IHact]; [intros r' Hr'; apply Hall; constructor; exact Hr'|].
    cbn [sum_over length]. rewrite count_succ, IHrate, IHact, Hrate, Hact.
    split; field; exact Ha.
Qed.

(** X14. In exact arithmetic, when every record of a subset has the same
    positive number of economically active, and its rate is the one the
    loader computes, the mean of the rates is the rate of the totals: the two
    only differ for regions of unequal size.  (In binary64 the two can still
    differ by a rounding error.) *)
Theorem X14_mean_of_equal_populations (subset : DataFrame) (a : Q) :
  subset <> [] -> (0 < a)%Q ->
  (forall r, r ∈ subset ->
     (economically_active r == a)%Q /\
     (unemployment_rate r == unemployed r / economically_active r * 100)%Q) ->
  exists mean,
    avg_unemployment_rate subset = Num mean /\
    (mean == total_unemployed subset / Series_sum (economically_active <$> subset) * 100)%Q.
Proof.
  intros Hne Ha Hall. eexists. split; [apply Series_mean_nonempty, Hne|].
  unfold total_unemployed. rewrite !Series_sum_sum_over.
  assert (~ (a == 0)%Q) as Ha0 by lra.
  destruct (equal_population_sums subset a Ha0 Hall) as [-> ->].
  pose proof (count_positive subset Hne) as Hn.
  field. split; lra.
Qed.

Lemma X14_mean_of_equal_populations_witness :
  exists mean,
    avg_unemployment_rate
      [mkRecord 2022 "부산광역시" 100 90 10 (10 / 100 * 100);
       mkRecord 2022 "인천광역시" 100 95 5 (5 / 100 * 100)] = Num mean /\
    (mean == 15 # 2)%Q.
Proof.
  destruct (X14_mean_of_equal_populations
              [mkRecord 2022 "부산광역시" 100 90 10 (10 / 100 * 100);
               mkRecord 2022 "인천광역시" 100 95 5 (5 / 100 * 100)] 100)
    as (mean & Hmean & Heq).
  - discriminate.
  - reflexivity.
  - intros r Hr.
    repeat (apply elem_of_cons in Hr as [->|Hr]; [split; reflexivity|]).
    apply elem_of_nil in Hr. contradiction.
  - exists mean. split; [exact Hmean|]. rewrite Heq. reflexivity.
Defined.

(** ** Wider selections *)




(** ** How loading and a run end *)

(** X16. Whatever is at the path, [load_data] never ends with
    [ZeroDivisionError] nor with [FileNotFoundError]; it returns [None]
    exactly when nothing is at the path, and that is the only case in which
    it calls Streamlit: once, with the error message that names the path. *)
Theorem X16_load_data_outcomes (fs : filesystem) (path : string) :
  outcome_of (load_data fs path) <> Raise ZeroDivisionError /\
  outcome_of (load_data fs path) <> Raise FileNotFoundError /\
  (outcome_of (load_data fs path) = Return None <-> fs !! path = None) /\
  calls_of (load_data fs path)
  = match fs !! path with
    | None => [st_error (not_found_message path)]
    | Some _ => []
    end.
Proof.
  destruct (fs !! path) as [[rows| |]|] eqn:E.
  - rewrite (load_data_readable _ _ _ E). cbn.
    repeat split; first [discriminate | intros Hx; discriminate Hx | reflexivity].
  - unfold load_data, pd_read_csv. rewrite E. cbn.
    repeat split; first [discriminate | intros Hx; discriminate Hx | reflexivity].
  - unfold load_data, pd_read_csv. rewrite E. cbn.
    repeat split; first [discriminate | intros Hx; discriminate Hx | reflexivity].
  - unfold load_data, pd_read_csv. rewrite E. cbn.
    repeat split; first [discriminate | intros Hx; discriminate Hx | reflexivity].
Qed.

Section WholeRun.
Context `{PyText}.



End WholeRun.


(** ** The further properties at sample inputs *)

Lemma X2_filter_narrowing_witness :
  filtered_df (filtered_df sample_df [2023%Z; 2022%Z] default_regions)
    [2023%Z] ["서울특별시"]
  = filtered_df sample_df [2023%Z] ["서울특별시"] /\
  filtered_df sample_df [2023%Z] ["서울특별시"]
    `sublist_of` filtered_df sample_df [2023%Z; 2022%Z] default_regions.
Proof.
  apply (X2_filter_narrowing sample_df [2023%Z] [2023%Z; 2022%Z]
           ["서울특별시"] default_regions).
  - intros y Hy. apply elem_of_cons in Hy as [->|Hy]; [constructor|].
    apply elem_of_nil in Hy. contradiction.
  - intros g Hg. apply elem_of_cons in Hg as [->|Hg]; [constructor|].
    apply elem_of_nil in Hg. contradiction.
Defined.

Lemma X3_filter_selection_as_set_witness :
  filtered_df sample_df [2023%Z; 2022%Z] ["경기도"; "서울특별시"]
  = filtered_df sample_df [2022%Z; 2023%Z; 2022%Z] ["서울특별시"; "경기도"].
Proof.
  apply (X3_filter_selection_as_set sample_df [2023%Z; 2022%Z] [2022%Z; 2023%Z; 2022%Z]
           ["경기도"; "서울특별시"] ["서울특별시"; "경기도"]).
  - intros y. rewrite !elem_of_cons, !elem_of_nil. tauto.
  - intros g. rewrite !elem_of_cons, !elem_of_nil. tauto.
Defined.

Lemma X8_trend_chart_needs_two_years_witness :
  scenario_A_subset
  = filtered_df sample_df (selected_years scenario_A_selection)
      (selected_regions scenario_A_selection) /\
  (exists body,
     st_in "col1" (st_info body)
       ∈ calls_of (@main_dashboard decimal_runtime scenario_A_selection sample_df)) /\
  st_bar_chart (bar_chart_df scenario_A_subset)
    ∈ calls_of (@main_dashboard decimal_runtime scenario_A_selection sample_df).
Proof.
  assert (scenario_A_subset
          = filtered_df sample_df (selected_years scenario_A_selection)
              (selected_regions scenario_A_selection)) as Hsub by (vm_compute; reflexivity).
  assert (scenario_A_subset <> []) as Hne by discriminate.
  split; [exact Hsub|].
  destruct (@X8_trend_chart_needs_two_years decimal_runtime scenario_A_selection sample_df
              scenario_A_subset Hsub Hne) as (_ & Hinfo & _ & _ & Hbar).
  split; [|exact Hbar]. apply Hinfo. cbn. lia.
Defined.
